(** * SmartSan NYC dashboard: the analytics core

    A shallow embedding of the complaint classifier of
    [routes/data_refresh.py] (the body of [refresh_311_data]) and of the
    forecasting functions of [services/predictions.py]
    ([PredictionService]), with the properties the specification states
    about them.

    Conventions of the embedding:
    - a Python [str] is a [string] of 8-bit characters; [lower], [upper]
      and [strip] act on the ASCII range;
    - a Python [int] is a [Z];
    - a Python [float] is an exact rational [Q]: rounding error of binary
      floating point is abstracted away, and equalities between floats
      are stated with [==];
    - the result of a database query is an input of the function that
      consumes it (the store is an external collaborator);
    - a [dict] whose iteration order matters is an association list in
      insertion order. *)

From Stdlib Require Import ZArith QArith Qround Qminmax Lia Lqa List Bool
  Ascii String Permutation Sorted.
Import ListNotations.

(* ================================================================== *)
(** * Definitions                                                      *)
(* ================================================================== *)

(** ** Python string operations *)

Module PyStr.

Local Open Scope string_scope.
Local Open Scope nat_scope.

(** [c.isspace()] on the ASCII range: tab, line feed, vertical tab, form
    feed, carriage return, the four separators 0x1c-0x1f and the space. *)
Definition is_space (c : ascii) : bool :=
  let n := nat_of_ascii c in
  ((9 <=? n) && (n <=? 13)) || ((28 <=? n) && (n <=? 32)).

Definition lower_char (c : ascii) : ascii :=
  let n := nat_of_ascii c in
  if (65 <=? n) && (n <=? 90) then ascii_of_nat (n + 32) else c.

Definition upper_char (c : ascii) : ascii :=
  let n := nat_of_ascii c in
  if (97 <=? n) && (n <=? 122) then ascii_of_nat (n - 32) else c.

Fixpoint map_string (f : ascii -> ascii) (s : string) : string :=
  match s with
  | EmptyString => EmptyString
  | String c rest => String (f c) (map_string f rest)
  end.

(** [s.lower()] and [s.upper()]. *)
Definition lower : string -> string := map_string lower_char.
Definition upper : string -> string := map_string upper_char.

Fixpoint lstrip (s : string) : string :=
  match s with
  | EmptyString => EmptyString
  | String c rest => if is_space c then lstrip rest else s
  end.

(** [rstrip] drops a character when it is a space and everything after
    it has been dropped. *)
Fixpoint rstrip (s : string) : string :=
  match s with
  | EmptyString => EmptyString
  | String c rest =>
      match rstrip rest with
      | EmptyString => if is_space c then EmptyString else String c EmptyString
      | kept => String c kept
      end
  end.

(** [s.strip()]. *)
Definition strip (s : string) : string := rstrip (lstrip s).

(** [needle in haystack]: substring test. *)
Fixpoint contains (needle haystack : string) : bool :=
  prefix needle haystack ||
  match haystack with
  | EmptyString => false
  | String _ rest => contains needle rest
  end.

(** [any(word in text for word in words)]. *)
Definition any_in (words : list string) (text : string) : bool :=
  existsb (fun word => contains word text) words.

(** Every character of [s] is a space: [s] is empty or whitespace-only. *)
Fixpoint all_space (s : string) : bool :=
  match s with
  | EmptyString => true
  | String c rest => is_space c && all_space rest
  end.

(** [s] is not empty and does not start with a space. *)
Definition starts_nonspace (s : string) : bool :=
  match s with
  | EmptyString => false
  | String c _ => negb (is_space c)
  end.

End PyStr.

(** ** The record classifier ([refresh_311_data], lines 88-191) *)

Module Classifier.

Import PyStr.
Local Open Scope string_scope.

(** The values [request_type] can take. *)
Inductive ComplaintCategory : Type :=
  | illegal_dumping | missed_pickup | overflow | rodent | dirty_condition
  | trash_issue | litter_basket | damaged_container | vendor_enforcement
  | obstruction | graffiti | unsanitary_condition | air_quality
  | water_quality | hazardous_materials | sweeping | mosquitoes | mold
  | snow | other.

Definition category_name (c : ComplaintCategory) : string :=
  match c with
  | illegal_dumping => "illegal_dumping" | missed_pickup => "missed_pickup"
  | overflow => "overflow" | rodent => "rodent"
  | dirty_condition => "dirty_condition" | trash_issue => "trash_issue"
  | litter_basket => "litter_basket"
  | damaged_container => "damaged_container"
  | vendor_enforcement => "vendor_enforcement"
  | obstruction => "obstruction" | graffiti => "graffiti"
  | unsanitary_condition => "unsanitary_condition"
  | air_quality => "air_quality" | water_quality => "water_quality"
  | hazardous_materials => "hazardous_materials" | sweeping => "sweeping"
  | mosquitoes => "mosquitoes" | mold => "mold" | snow => "snow"
  | other => "other"
  end.

Definition category_eqb (a b : ComplaintCategory) : bool :=
  String.eqb (category_name a) (category_name b).

Inductive Priority : Type := low | normal | high | urgent.

(** The three normalised texts the rules look at (lines 89-92). *)
Definition complaint_lower_of (complaint_type : string) : string :=
  lower (strip complaint_type).

Definition descriptor_of (descriptor : string) : string := lower descriptor.

Definition combined_text_of (complaint_type descriptor : string) : string :=
  lower (complaint_lower_of complaint_type ++ " " ++ descriptor_of descriptor).

(** The [if]/[elif] chain of lines 96-182 on the normalised texts. *)
Definition request_type_of (complaint_lower descriptor combined_text : string)
  : ComplaintCategory :=
  if contains "unsanitary pigeon condition" combined_text
     || contains "unsanitary animal facility" combined_text
  then unsanitary_condition
  else if contains "air quality" combined_text then air_quality
  else if contains "unsanitary condition" combined_text
          || contains "dirty conditions" combined_text
  then dirty_condition
  else if contains "sewer" combined_text
          || contains "water quality" combined_text
  then water_quality
  else if contains "missed collection" combined_text
          || contains "missed collection (all materials)" combined_text
  then missed_pickup
  else if contains "hazardous materials" combined_text
          || contains "lead" combined_text
  then hazardous_materials
  else if contains "sweeping" combined_text
          && (contains "inadequate" combined_text
              || contains "missed" combined_text)
  then sweeping
  else if contains "mosquitoes" combined_text then mosquitoes
  else if contains "mold" combined_text then mold
  else if contains "snow" combined_text then snow
  else if contains "residential disposal complaint" complaint_lower then
    if any_in ["not secure"; "not separated"; "bin not used"; "too early";
               "too late"; "left in front"] descriptor
    then trash_issue
    else if contains "storage area" descriptor then other
    else trash_issue
  else if contains "dumpster complaint" complaint_lower then
    if contains "overflowing" descriptor then overflow else trash_issue
  else if contains "dead animal" complaint_lower then
    if any_in ["rat"; "mouse"; "rodent"] descriptor then rodent else other
  else if contains "street sweeping complaint" complaint_lower then sweeping
  else if contains "sanitation worker" complaint_lower
          || contains "vehicle complaint" complaint_lower
  then other
  else if contains "derelict vehicle" complaint_lower then other
  else if contains "illegal posting" complaint_lower then other
  else if any_in ["illegal dumping"; "dumping"; "illegal dump"; "dumped";
                  "chronic dumping"] combined_text
  then illegal_dumping
  else if any_in ["missed collection"; "missed pickup"; "missed trash";
                  "collection missed"; "pickup missed"; "no pickup"]
            combined_text
  then missed_pickup
  else if any_in ["overflow"; "overflowing"; "over flowing"; "bin full";
                  "container full"; "overflowing dumpster";
                  "overflowing basket"] combined_text
  then overflow
  else if any_in ["rodent"; "rat"; "rats"; "mouse"; "mice";
                  "rodent activity"; "rodent sighting"] combined_text
  then rodent
  else if any_in ["dirty condition"; "sanitation condition"; "unsanitary";
                  "dirty area"; "filthy"; "unsanitary condition"]
            combined_text
  then dirty_condition
  else if any_in ["trash"; "garbage"; "refuse"; "waste"; "debris";
                  "rubbish"; "solid waste"; "not secure"; "not separated"]
            combined_text
  then trash_issue
  else if any_in ["litter basket"; "litter"; "basket"; "litter bin";
                  "street basket"; "replacement basket"; "new basket"]
            combined_text
  then litter_basket
  else if any_in ["damaged container"; "broken container";
                  "container damaged"; "damaged bin"; "broken bin"]
            combined_text
  then damaged_container
  else if any_in ["vendor"; "enforcement"; "street vendor";
                  "vendor violation"; "food vendor"; "non-food vendor"]
            combined_text
  then vendor_enforcement
  else if any_in ["obstruction"; "blocking"; "blocked"; "obstructing";
                  "access blocked"] combined_text
  then obstruction
  else if any_in ["graffiti"; "vandalism"; "spray paint"] combined_text
  then graffiti
  else if any_in ["street condition"; "sidewalk"] combined_text
          && any_in ["trash"; "garbage"; "debris"; "litter"] combined_text
  then trash_issue
  else other.

(** [classify complaint_type descriptor]: the category stored in
    [request_type] for a raw record. *)
Definition classify (complaint_type descriptor : string) : ComplaintCategory :=
  request_type_of (complaint_lower_of complaint_type)
                  (descriptor_of descriptor)
                  (combined_text_of complaint_type descriptor).

(** The categories whose requests are high priority (line 187). *)
Definition high_priority_types : list ComplaintCategory :=
  [illegal_dumping; rodent; overflow; hazardous_materials; mold;
   air_quality; water_quality].

Definition is_high_priority_type (c : ComplaintCategory) : bool :=
  existsb (category_eqb c) high_priority_types.

(** Lines 184-191 on the normalised texts. *)
Definition priority_of (request_type : ComplaintCategory)
    (complaint_lower descriptor : string) : Priority :=
  let priority := normal in
  let priority :=
    if is_high_priority_type request_type then high else priority in
  let priority :=
    if contains "urgent" complaint_lower || contains "emergency" descriptor
    then urgent else priority in
  priority.

(** The priority of a raw record whose category is [request_type]. *)
Definition infer_priority (request_type : ComplaintCategory)
    (complaint_type descriptor : string) : Priority :=
  priority_of request_type (complaint_lower_of complaint_type)
              (descriptor_of descriptor).

(** The three tiers of the chain, each as a partial function. *)

(** Lines 100-119: complaint types "found in real data", on the combined
    text. *)
Definition new_type_rules (combined_text : string)
  : option ComplaintCategory :=
  if contains "unsanitary pigeon condition" combined_text
     || contains "unsanitary animal facility" combined_text
  then Some unsanitary_condition
  else if contains "air quality" combined_text then Some air_quality
  else if contains "unsanitary condition" combined_text
          || contains "dirty conditions" combined_text
  then Some dirty_condition
  else if contains "sewer" combined_text
          || contains "water quality" combined_text
  then Some water_quality
  else if contains "missed collection" combined_text
          || contains "missed collection (all materials)" combined_text
  then Some missed_pickup
  else if contains "hazardous materials" combined_text
          || contains "lead" combined_text
  then Some hazardous_materials
  else if contains "sweeping" combined_text
          && (contains "inadequate" combined_text
              || contains "missed" combined_text)
  then Some sweeping
  else if contains "mosquitoes" combined_text then Some mosquitoes
  else if contains "mold" combined_text then Some mold
  else if contains "snow" combined_text then Some snow
  else None.

(** Lines 121-146: agency codes, on the complaint type alone. *)
Definition agency_code_rules (complaint_lower descriptor : string)
  : option ComplaintCategory :=
  if contains "residential disposal complaint" complaint_lower then
    if any_in ["not secure"; "not separated"; "bin not used"; "too early";
               "too late"; "left in front"] descriptor
    then Some trash_issue
    else if contains "storage area" descriptor then Some other
    else Some trash_issue
  else if contains "dumpster complaint" complaint_lower then
    if contains "overflowing" descriptor then Some overflow
    else Some trash_issue
  else if contains "dead animal" complaint_lower then
    if any_in ["rat"; "mouse"; "rodent"] descriptor then Some rodent
    else Some other
  else if contains "street sweeping complaint" complaint_lower
  then Some sweeping
  else if contains "sanitation worker" complaint_lower
          || contains "vehicle complaint" complaint_lower
  then Some other
  else if contains "derelict vehicle" complaint_lower then Some other
  else if contains "illegal posting" complaint_lower then Some other
  else None.

(** Lines 148-182: generic keyword lists, on the combined text. *)
Definition generic_keyword_rules (combined_text : string)
  : option ComplaintCategory :=
  if any_in ["illegal dumping"; "dumping"; "illegal dump"; "dumped";
             "chronic dumping"] combined_text
  then Some illegal_dumping
  else if any_in ["missed collection"; "missed pickup"; "missed trash";
                  "collection missed"; "pickup missed"; "no pickup"]
            combined_text
  then Some missed_pickup
  else if any_in ["overflow"; "overflowing"; "over flowing"; "bin full";
                  "container full"; "overflowing dumpster";
                  "overflowing basket"] combined_text
  then Some overflow
  else if any_in ["rodent"; "rat"; "rats"; "mouse"; "mice";
                  "rodent activity"; "rodent sighting"] combined_text
  then Some rodent
  else if any_in ["dirty condition"; "sanitation condition"; "unsanitary";
                  "dirty area"; "filthy"; "unsanitary condition"]
            combined_text
  then Some dirty_condition
  else if any_in ["trash"; "garbage"; "refuse"; "waste"; "debris";
                  "rubbish"; "solid waste"; "not secure"; "not separated"]
            combined_text
  then Some trash_issue
  else if any_in ["litter basket"; "litter"; "basket"; "litter bin";
                  "street basket"; "replacement basket"; "new basket"]
            combined_text
  then Some litter_basket
  else if any_in ["damaged container"; "broken container";
                  "container damaged"; "damaged bin"; "broken bin"]
            combined_text
  then Some damaged_container
  else if any_in ["vendor"; "enforcement"; "street vendor";
                  "vendor violation"; "food vendor"; "non-food vendor"]
            combined_text
  then Some vendor_enforcement
  else if any_in ["obstruction"; "blocking"; "blocked"; "obstructing";
                  "access blocked"] combined_text
  then Some obstruction
  else if any_in ["graffiti"; "vandalism"; "spray paint"] combined_text
  then Some graffiti
  else if any_in ["street condition"; "sidewalk"] combined_text
          && any_in ["trash"; "garbage"; "debris"; "litter"] combined_text
  then Some trash_issue
  else None.



End Classifier.

(** ** Python numbers *)

Module PyNum.

Local Open Scope Q_scope.

Definition Qltb (a b : Q) : bool := negb (Qle_bool b a).

(** [max(a, b)]: [b] when [b > a], else [a]. *)
Definition py_max (a b : Q) : Q := if Qltb a b then b else a.

(** [min(a, b)]: [b] when [b < a], else [a]. *)
Definition py_min (a b : Q) : Q := if Qltb b a then b else a.

(** [max] and [min] on integers. *)
Definition py_maxz (a b : Z) : Z := if (a <? b)%Z then b else a.
Definition py_minz (a b : Z) : Z := if (b <? a)%Z then b else a.

(** [int(x)]: truncation towards zero. *)
Definition py_int (x : Q) : Z := Z.quot (Qnum x) (Z.pos (Qden x)).

(** Rounding to the nearest integer, ties to the even one. *)
Definition round_half_even (x : Q) : Z :=
  let f := Qfloor x in
  match Qcompare (x - inject_Z f) (1 # 2) with
  | Lt => f
  | Gt => (f + 1)%Z
  | Eq => if Z.even f then f else (f + 1)%Z
  end.

(** [round(x, ndigits)]. *)
Definition py_round (x : Q) (ndigits : nat) : Q :=
  let scale := inject_Z (10 ^ Z.of_nat ndigits) in
  inject_Z (round_half_even (x * scale)) / scale.

(** [a / b] on two integers. *)
Definition true_div (a b : Z) : Q := inject_Z a / inject_Z b.

(** [sum(xs)] on integers and on floats, [len(xs)]. *)
Definition sumz (xs : list Z) : Z := fold_left Z.add xs 0%Z.
Definition sumq (xs : list Q) : Q := fold_left Qplus xs 0.
Definition len {A : Type} (xs : list A) : Z := Z.of_nat (List.length xs).

(** [xs[-k:]] for [0 <= k]: the last [k] elements; all of [xs] when [k]
    is 0 (as [-0] is 0) or exceeds the length. *)
Definition slice_last {A : Type} (k : Z) (xs : list A) : list A :=
  if (k =? 0)%Z then xs else skipn (List.length xs - Z.to_nat k) xs.

(** [x in xs] on integers. *)
Definition memz (x : Z) (xs : list Z) : bool := existsb (Z.eqb x) xs.

(** [list(range(n))]. *)
Definition range (n : nat) : list Z := map Z.of_nat (seq 0 n).

(** [sorted(xs, key=key, reverse=True)]: stable, descending. *)
Fixpoint insert_desc {A : Type} (key : A -> Z) (x : A) (xs : list A)
  : list A :=
  match xs with
  | [] => [x]
  | y :: rest =>
      if (key x <? key y)%Z then y :: insert_desc key x rest else x :: xs
  end.

Definition sort_desc {A : Type} (key : A -> Z) (xs : list A) : list A :=
  fold_right (insert_desc key) [] xs.

(** [d.get(k)] on a [dict] kept in insertion order. *)
Fixpoint lookup {V : Type} (k : string) (d : list (string * V)) : option V :=
  match d with
  | [] => None
  | (k', v) :: rest => if String.eqb k k' then Some v else lookup k rest
  end.

(** The list a [defaultdict(list)] holds for [k]: empty for a new key. *)
Definition get_list {V : Type} (k : string) (d : list (string * list V))
  : list V :=
  match lookup k d with
  | Some vs => vs
  | None => []
  end.

(** [d[k].append(v)] on a [defaultdict(list)] kept in insertion order. *)
Fixpoint append_to {V : Type} (k : string) (v : V)
    (d : list (string * list V)) : list (string * list V) :=
  match d with
  | [] => [(k, [v])]
  | (k', vs) :: rest =>
      if String.eqb k k' then (k', vs ++ [v]) :: rest
      else (k', vs) :: append_to k v rest
  end.

End PyNum.

(** ** The prediction service ([services/predictions.py]) *)

Module Predictions.

Import PyStr PyNum.
Local Open Scope string_scope.
Local Open Scope Z_scope.
Local Open Scope Q_scope.

(** The calendar date of [datetime.utcnow()]; the time of day is not
    read by the code below. *)
Record datetime : Type := mk_datetime { year : Z; month : Z; day : Z }.

(** [calendar.month_name[m]] for [m] in 0..12. *)
Definition month_name (m : Z) : string :=
  nth (Z.to_nat m)
      [""; "January"; "February"; "March"; "April"; "May"; "June"; "July";
       "August"; "September"; "October"; "November"; "December"] "".

(** *** [predict_hotspots] *)

(** A row of the aggregation pipeline: a grid cell with its number of
    requests, mean priority and number of active weekdays. *)
Record HotspotPattern : Type := mk_pattern {
  hp_lat : Q;
  hp_lng : Q;
  hp_total_requests : Z;
  hp_avg_priority : Q;
  hp_days_active : Z
}.

Record HotspotPrediction : Type := mk_hotspot {
  hs_lat : Q;
  hs_lng : Q;
  hs_predicted_requests : Z;
  hs_confidence : Q;
  hs_historical_avg_priority : Q;
  hs_days_ahead : Z;
  hs_based_on_days : Z;
  hs_data_source : string
}.

(** Lines 94-110: one prediction per pattern. *)
Definition hotspot_of_pattern (days_ahead : Z) (pattern : HotspotPattern)
  : HotspotPrediction :=
  let predicted_requests :=
    py_int (true_div (hp_total_requests pattern) 90 * inject_Z days_ahead) in
  let confidence := py_min 100 (true_div (hp_days_active pattern) 13 * 100) in
  {| hs_lat := hp_lat pattern;
     hs_lng := hp_lng pattern;
     hs_predicted_requests := predicted_requests;
     hs_confidence := py_round confidence 1;
     hs_historical_avg_priority := py_round (hp_avg_priority pattern) 2;
     hs_days_ahead := days_ahead;
     hs_based_on_days := 90;
     hs_data_source := "Real historical 311 request patterns" |}.

(** Lines 116-120: the month factor of the hotspot forecast. *)
Definition hotspot_seasonal_factor (current_month : Z) : Q :=
  let seasonal_factor := 1.0 in
  if memz current_month [12; 1; 2]%Z then 1.1
  else if memz current_month [6; 7; 8]%Z then 1.15
  else seasonal_factor.

(** Line 122. *)
Definition apply_seasonal_weighting (current_month : Z)
    (pred : HotspotPrediction) : HotspotPrediction :=
  {| hs_lat := hs_lat pred;
     hs_lng := hs_lng pred;
     hs_predicted_requests :=
       py_int (inject_Z (hs_predicted_requests pred)
               * hotspot_seasonal_factor current_month);
     hs_confidence := hs_confidence pred;
     hs_historical_avg_priority := hs_historical_avg_priority pred;
     hs_days_ahead := hs_days_ahead pred;
     hs_based_on_days := hs_based_on_days pred;
     hs_data_source := hs_data_source pred |}.

Definition predict_hotspots (current_date : datetime) (days_ahead : Z)
    (historical_patterns : list HotspotPattern) : list HotspotPrediction :=
  let predictions := map (hotspot_of_pattern days_ahead) historical_patterns in
  let current_month := month current_date in
  let predictions := map (apply_seasonal_weighting current_month) predictions in
  sort_desc hs_predicted_requests predictions.

(** *** [predict_tonnage_forecast] *)

(** A collection document; a field is [None] when the document lacks
    it ([coll.get] then takes its default). *)
Record CollectionDoc : Type := mk_collection {
  coll_waste_type : option string;
  coll_tonnage : option Q
}.

Record WasteTypePrediction : Type := mk_waste_prediction {
  predicted_tonnage : Q;
  avg_daily_tonnage : Q;
  historical_samples : Z
}.

Record TonnageForecast : Type := mk_forecast {
  tf_zone_id : string;
  tf_forecast_days : Z;
  tf_predictions : list (string * WasteTypePrediction);
  tf_total_predicted_tonnage : Q;
  tf_confidence : Q;
  tf_based_on_days : Z;
  tf_data_source : string
}.

Inductive TonnageResult : Type :=
  | TonnageError (zone_id error data_source : string)
  | TonnageOk (forecast : TonnageForecast).

(** Lines 161-165. *)
Definition group_by_waste_type (collections : list CollectionDoc)
  : list (string * list Q) :=
  fold_left
    (fun daily_totals coll =>
       let waste_type :=
         match coll_waste_type coll with
         | Some w => w
         | None => "residential"
         end in
       let tonnage :=
         match coll_tonnage coll with Some t => t | None => 0 end in
       append_to waste_type tonnage daily_totals)
    collections [].

(** Lines 178-190: the loop over the waste types, on the triple
    (predictions, total predicted tonnage, total samples). *)
Definition tonnage_loop (days_ahead : Z) (daily_totals : list (string * list Q))
  : list (string * WasteTypePrediction) * Q * Z :=
  fold_left
    (fun '(predictions, total_predicted, total_samples) '(waste_type, tonnages) =>
       match tonnages with
       | [] => (predictions, total_predicted, total_samples)
       | _ =>
           let avg_daily := sumq tonnages / inject_Z (len tonnages) in
           let predicted := avg_daily * inject_Z days_ahead in
           ((predictions ++
               [(waste_type,
                 {| predicted_tonnage := py_round predicted 2;
                    avg_daily_tonnage := py_round avg_daily 2;
                    historical_samples := len tonnages |})])%list,
            total_predicted + predicted,
            (total_samples + len tonnages)%Z)
       end)
    daily_totals ([], 0, 0%Z).

Definition predict_tonnage_forecast (zone_id : string) (days_ahead : Z)
    (collections : list CollectionDoc) : TonnageResult :=
  match collections with
  | [] => TonnageError zone_id "Insufficient historical data"
                       "Real DSNY collection data"
  | _ =>
      let daily_totals := group_by_waste_type collections in
      let '(predictions, total_predicted, total_samples) :=
        tonnage_loop days_ahead daily_totals in
      TonnageOk
        {| tf_zone_id := zone_id;
           tf_forecast_days := days_ahead;
           tf_predictions := predictions;
           tf_total_predicted_tonnage := py_round total_predicted 2;
           tf_confidence :=
             py_min 100
               (true_div total_samples (60 * len daily_totals) * 100);
           tf_based_on_days := 60;
           tf_data_source := "Real DSNY monthly tonnage data" |}
  end.

(** *** [predict_complaint_types] *)

(** A row of the aggregation pipeline: a request type with its counts
    per month and its total. *)
Record TypeHistory : Type := mk_type_history {
  th_type : string;
  th_monthly_counts : list (Z * Z);
  th_total : Z
}.

Record SeasonalPattern : Type := mk_pattern_entry {
  peak_months : list Z;
  factor : Q
}.

(** Lines 310-317. *)
Definition seasonal_patterns : list (string * SeasonalPattern) :=
  [("snow", {| peak_months := [12; 1; 2]%Z; factor := 3.0 |});
   ("mosquitoes", {| peak_months := [6; 7; 8]%Z; factor := 2.5 |});
   ("mold", {| peak_months := [3; 4; 5]%Z; factor := 2.0 |});
   ("air_quality", {| peak_months := [6; 7; 8]%Z; factor := 1.8 |});
   ("overflow", {| peak_months := [11; 12]%Z; factor := 1.5 |});
   ("rodent", {| peak_months := [9; 10; 11]%Z; factor := 1.3 |})].

(** [{item['month']: item['count'] for item in items}.get(m, default)]:
    the last item of month [m] wins. *)
Definition monthly_get (items : list (Z * Z)) (m : Z) (default : Q) : Q :=
  fold_left
    (fun found '(item_month, item_count) =>
       if (item_month =? m)%Z then inject_Z item_count else found)
    items default.

(** Lines 331-338. *)
Definition seasonal_factor (complaint_type : string)
    (current_month target_month : Z) : Q :=
  let seasonal_factor := 1.0 in
  match lookup complaint_type seasonal_patterns with
  | Some pattern =>
      if memz target_month (peak_months pattern) then factor pattern
      else if memz current_month (peak_months pattern)
      then factor pattern * 0.8
      else seasonal_factor
  | None => seasonal_factor
  end.

Record TypePrediction : Type := mk_type_prediction {
  tp_complaint_type : string;
  tp_predicted_count : Z;
  tp_current_month_avg : Q;
  tp_seasonal_factor : Q;
  tp_trend : string;
  tp_target_month : string;
  tp_confidence : Q
}.

(** Lines 321-358: one prediction per request type. *)
Definition type_prediction (days_ahead current_month target_month : Z)
    (data : TypeHistory) : TypePrediction :=
  let complaint_type := th_type data in
  let avg_monthly :=
    if (0 <? th_total data)%Z then true_div (th_total data) 12 else 0 in
  let current_month_avg :=
    monthly_get (th_monthly_counts data) current_month avg_monthly in
  let seasonal_factor :=
    seasonal_factor complaint_type current_month target_month in
  let predicted_count :=
    py_int (current_month_avg * seasonal_factor * true_div days_ahead 30) in
  let trend :=
    if Qltb 1.3 seasonal_factor then "increasing"
    else if Qltb seasonal_factor 0.8 then "decreasing"
    else "stable" in
  {| tp_complaint_type := complaint_type;
     tp_predicted_count := predicted_count;
     tp_current_month_avg := py_round current_month_avg 1;
     tp_seasonal_factor := py_round seasonal_factor 2;
     tp_trend := trend;
     tp_target_month := month_name target_month;
     tp_confidence := py_min 100 (true_div (th_total data) 100 * 100) |}.

Record TypeForecast : Type := mk_type_forecast {
  cf_predictions : list TypePrediction;
  cf_days_ahead : Z;
  cf_current_month : string;
  cf_target_month : string;
  cf_data_source : string
}.

(** [target_date] is [current_date + timedelta(days=days_ahead)]; the
    calendar addition is the caller's, which passes its month. *)
Definition predict_complaint_types (current_date : datetime)
    (target_month : Z) (days_ahead : Z) (historical_data : list TypeHistory)
  : TypeForecast :=
  let current_month := month current_date in
  let predictions :=
    map (type_prediction days_ahead current_month target_month)
        historical_data in
  let predictions := sort_desc tp_predicted_count predictions in
  {| cf_predictions := firstn 15 predictions;
     cf_days_ahead := days_ahead;
     cf_current_month := month_name current_month;
     cf_target_month := month_name target_month;
     cf_data_source := "Real historical 311 complaint patterns" |}.

(** *** [predict_overflow_risk] *)

(** A zone of the overflow pipeline, with the number of its completed
    collections of the last 7 days ([count_documents]). *)
Record OverflowZone : Type := mk_overflow_zone {
  oz_zone_id : string;
  oz_overflow_count : Z;
  oz_recent_overflow : Z;
  oz_recent_collections : Z
}.

Record RiskZone : Type := mk_risk_zone {
  rz_zone_id : string;
  rz_risk_score : Z;
  rz_overflow_count_90d : Z;
  rz_recent_overflow_7d : Z;
  rz_recent_collections_7d : Z;
  rz_risk_level : string;
  rz_recommendation : string
}.

(** Lines 438-440. *)
Definition risk_score (overflow_count recent_collections : Z) : Z :=
  let overflow_score := py_minz 100 (overflow_count * 10) in
  let collection_score := py_maxz 0 (50 - recent_collections * 5) in
  py_minz 100 (overflow_score + collection_score).

(** Lines 448-449. *)
Definition risk_level (risk_score : Z) : string :=
  if (70 <? risk_score)%Z then "high"
  else if (40 <? risk_score)%Z then "medium"
  else "low".

Definition recommendation (risk_score : Z) : string :=
  if (70 <? risk_score)%Z then "Increase collection frequency"
  else if (40 <? risk_score)%Z then "Monitor closely"
  else "Normal operations".

(** Lines 442-450; [round(risk_score, 1)] of an [int] is that [int]. *)
Definition risk_zone_of (zone_data : OverflowZone) : RiskZone :=
  let recent_collections := oz_recent_collections zone_data in
  let risk_score := risk_score (oz_overflow_count zone_data) recent_collections in
  {| rz_zone_id := oz_zone_id zone_data;
     rz_risk_score := risk_score;
     rz_overflow_count_90d := oz_overflow_count zone_data;
     rz_recent_overflow_7d := oz_recent_overflow zone_data;
     rz_recent_collections_7d := recent_collections;
     rz_risk_level := risk_level risk_score;
     rz_recommendation := recommendation risk_score |}.

Definition predict_overflow_risk (overflow_data : list OverflowZone)
  : list RiskZone :=
  sort_desc rz_risk_score (map risk_zone_of overflow_data).

(** *** [predict_borough_complaints] *)

(** A row of the aggregation pipeline, in ascending order of date: a
    borough, a day and the number of complaints of that day.  [hd_date]
    is [None] when [strptime] rejects the date string. *)
Record HistoricalPoint : Type := mk_point {
  hd_borough : string;
  hd_date : option datetime;
  hd_count : Z
}.

(** Lines 576-587.  The dates of a borough feed only the weekday
    averages of lines 635-649, which nothing reads afterwards: the
    grouped data keeps the counts. *)
Definition organize_by_borough (historical_data : list HistoricalPoint)
  : list (string * list Z) :=
  fold_left
    (fun borough_data record =>
       match hd_date record with
       | Some _ => append_to (hd_borough record) (hd_count record) borough_data
       | None => borough_data
       end)
    historical_data [].

(** Lines 604-606. *)
Definition recent_avg (counts : list Z) : Q :=
  let recent_days := 30%Z in
  let recent_counts := slice_last (py_minz recent_days (len counts)) counts in
  match recent_counts with
  | [] => 0
  | _ => true_div (sumz recent_counts) (len recent_counts)
  end.

(** Line 609. *)
Definition overall_avg (counts : list Z) : Q :=
  match counts with
  | [] => 0
  | _ => true_div (sumz counts) (len counts)
  end.

(** Lines 618-633 on the window [trend_counts]. *)
Definition regression_slope (trend_counts : list Z) : Q :=
  if (1 <? len trend_counts)%Z then
    let n := len trend_counts in
    let x_values := range (List.length trend_counts) in
    let sum_x := sumz x_values in
    let sum_y := sumz trend_counts in
    let sum_xy :=
      sumz (map (fun '(x, y) => (x * y)%Z) (combine x_values trend_counts)) in
    let sum_x2 := sumz (map (fun x => (x * x)%Z) x_values) in
    let denominator := (n * sum_x2 - sum_x * sum_x)%Z in
    if negb (denominator =? 0)%Z
    then true_div (n * sum_xy - sum_x * sum_y) denominator
    else 0
  else 0.

(** Lines 613-633. *)
Definition trend_slope (counts : list Z) : Q :=
  let trend_window := py_minz 60 (len counts) in
  let trend_counts := slice_last trend_window counts in
  regression_slope trend_counts.

(** Lines 653-666. *)
Definition predicted_daily (recent_avg slope : Q) (days_ahead : Z) : Q :=
  let base_daily := recent_avg in
  let trend_adjustment := slope * true_div days_ahead 2 in
  let max_negative_adjustment := - base_daily * 0.5 in
  let trend_adjustment := py_max max_negative_adjustment trend_adjustment in
  let predicted_daily := base_daily + trend_adjustment in
  let min_daily := recent_avg * 0.1 in
  py_max min_daily predicted_daily.

(** Lines 669-672. *)
Definition predicted_total (recent_avg slope : Q) (days_ahead : Z) : Z :=
  let predicted_total :=
    py_int (predicted_daily recent_avg slope days_ahead * inject_Z days_ahead) in
  py_maxz 0 predicted_total.

(** Line 676. *)
Definition variance (counts : list Z) (overall_avg : Q) : Q :=
  match counts with
  | [] => 0
  | _ =>
      sumq (map (fun c => (inject_Z c - overall_avg) ^ 2) counts)
      / inject_Z (len counts)
  end.

(** Lines 704-707. *)
Definition trend_direction (slope : Q) : string :=
  if Qltb 0.1 slope then "increasing"
  else if Qltb slope (- 0.1) then "decreasing"
  else "stable".

(** Lines 710-713. *)
Definition percent_change (recent_avg overall_avg : Q) : Q :=
  if Qltb 0 overall_avg
  then (recent_avg - overall_avg) / overall_avg * 100
  else 0.

(** Line 593: the boroughs the loop passes over. *)
Definition unspecified_borough (borough : string) : bool :=
  String.eqb borough "" || String.eqb (upper borough) "UNSPECIFIED".

Record BoroughPrediction : Type := mk_borough_prediction {
  bp_borough : string;
  bp_predicted_complaints : Z;
  bp_predicted_daily_avg : Q;
  bp_current_daily_avg : Q;
  bp_historical_daily_avg : Q;
  bp_trend : string;
  bp_trend_slope : Q;
  bp_percent_change : Q;
  bp_confidence : Q;
  bp_days_ahead : Z;
  bp_data_points : Z;
  bp_prediction_date : datetime
}.

Record BoroughForecast : Type := mk_borough_forecast {
  bf_predictions : list BoroughPrediction;
  bf_count : Z;
  bf_days_ahead : Z;
  bf_forecast_date : datetime;
  bf_data_source : string;
  bf_method : string
}.

Section Borough.

(** [x ** 0.5] on floats. *)
Variable pow_half : Q -> Q.

(** Lines 675-700. *)
Definition confidence (data_points : Z) (variance overall_avg : Q) : Q :=
  let std_dev := pow_half variance in
  let base_confidence : Q :=
    if (30 <=? data_points)%Z then 85
    else if (14 <=? data_points)%Z then 70
    else if (7 <=? data_points)%Z then 50
    else 30 in
  let confidence := base_confidence in
  let confidence :=
    if Qltb 0 std_dev && Qltb 0 overall_avg then
      let cv := std_dev / overall_avg in
      if Qltb 0.5 cv
      then confidence * (1 - py_min 0.3 ((cv - 0.5) * 0.5))
      else confidence
    else confidence in
  py_max 30 (py_min 95 confidence).

(** Lines 599-729: the prediction of one borough that passed the two
    guards.  The text field [forecast_period] is left out. *)
Definition borough_prediction (current_date : datetime) (days_ahead : Z)
    (borough : string) (counts : list Z) : BoroughPrediction :=
  let recent_avg := recent_avg counts in
  let overall_avg := overall_avg counts in
  let slope := trend_slope counts in
  let predicted_daily := predicted_daily recent_avg slope days_ahead in
  let predicted_total := predicted_total recent_avg slope days_ahead in
  let data_points := len counts in
  let variance := variance counts overall_avg in
  let confidence := confidence data_points variance overall_avg in
  {| bp_borough := borough;
     bp_predicted_complaints := predicted_total;
     bp_predicted_daily_avg := py_round predicted_daily 1;
     bp_current_daily_avg := py_round recent_avg 1;
     bp_historical_daily_avg := py_round overall_avg 1;
     bp_trend := trend_direction slope;
     bp_trend_slope := py_round slope 2;
     bp_percent_change := py_round (percent_change recent_avg overall_avg) 1;
     bp_confidence := py_round confidence 1;
     bp_days_ahead := days_ahead;
     bp_data_points := data_points;
     bp_prediction_date := current_date |}.

(** Lines 589-729: the loop over the boroughs. *)
Definition borough_loop (current_date : datetime) (days_ahead : Z)
    (borough_data : list (string * list Z)) : list BoroughPrediction :=
  flat_map
    (fun '(borough, counts) =>
       if unspecified_borough borough then []
       else if (len counts <? 3)%Z then []
       else [borough_prediction current_date days_ahead borough counts])
    borough_data.

Definition predict_borough_complaints (current_date : datetime)
    (days_ahead : Z) (historical_data : list HistoricalPoint)
  : BoroughForecast :=
  let borough_data := organize_by_borough historical_data in
  let predictions := borough_loop current_date days_ahead borough_data in
  let predictions := sort_desc bp_predicted_complaints predictions in
  {| bf_predictions := predictions;
     bf_count := len predictions;
     bf_days_ahead := days_ahead;
     bf_forecast_date := current_date;
     bf_data_source := "Real historical 311 complaint data by borough";
     bf_method :=
       "Time series analysis with trend detection and seasonal patterns" |}.

End Borough.

(** *** [predict_route_optimization] *)

(** A route document; the duration is [None] when the document lacks
    [estimated_duration_minutes]. *)
Record RouteDoc : Type := mk_route {
  route_estimated_duration_minutes : option Q
}.

Record RouteOptimization : Type := mk_route_optimization {
  ro_zone_id : string;
  ro_current_avg_time_minutes : Q;
  ro_optimized_time_minutes : Q;
  ro_time_saved_minutes : Q;
  ro_time_saved_percent : Q;
  ro_fuel_saved_gallons : Q;
  ro_cost_saved_per_day : Q;
  ro_based_on_routes : Z;
  ro_data_source : string
}.

Inductive RouteResult : Type :=
  | RouteError (zone_id error data_source : string)
  | RouteOk (optimization : RouteOptimization).

(** Line 231. *)
Definition avg_route_time (routes : list RouteDoc) : Q :=
  sumq (map (fun r => match route_estimated_duration_minutes r with
                      | Some minutes => minutes
                      | None => 240
                      end) routes)
  / inject_Z (len routes).

(** Lines 217-248, on the routes the query returns. *)
Definition predict_route_optimization (zone_id : string)
    (routes : list RouteDoc) : RouteResult :=
  match routes with
  | [] => RouteError zone_id "No route data available"
                     "Real route collection data"
  | _ =>
      let avg_time := avg_route_time routes in
      let optimized_time := avg_time * 0.85 in
      let time_saved := avg_time - optimized_time in
      RouteOk
        {| ro_zone_id := zone_id;
           ro_current_avg_time_minutes := py_round avg_time 1;
           ro_optimized_time_minutes := py_round optimized_time 1;
           ro_time_saved_minutes := py_round time_saved 1;
           ro_time_saved_percent := 15.0;
           ro_fuel_saved_gallons := py_round (time_saved / 60 * 2.5) 2;
           ro_cost_saved_per_day := py_round (time_saved / 60 * 50) 2;
           ro_based_on_routes := len routes;
           ro_data_source := "Real route performance data" |}
  end.

End Predictions.

(** ** The bulk write of [refresh_311_data] (lines 259-284) *)

Module BulkWrite.

(** Line 261. *)
Definition batch_size : nat := 500.

(** [list(range(start, stop, step))] for a positive [step]; [fuel]
    bounds the number of elements. *)
Fixpoint range_from (fuel start stop step : nat) : list nat :=
  match fuel with
  | O => []
  | S fuel' =>
      if (start <? stop)%nat
      then start :: range_from fuel' (start + step) stop step
      else []
  end.

(** [list(range(0, stop, step))]: at most [stop] elements. *)
Definition range_step (stop step : nat) : list nat :=
  range_from stop 0 stop step.

(** [xs[i:j]] for [0 <= i <= j]. *)
Definition slice {A : Type} (i j : nat) (xs : list A) : list A :=
  firstn (j - i) (skipn i xs).

(** Lines 264-265: the batches the loop writes, in order. *)
Definition batches {A : Type} (requests : list A) : list (list A) :=
  map (fun i => slice i (i + batch_size) requests)
      (range_step (List.length requests) batch_size).

(** Line 262. *)
Definition total_batches {A : Type} (requests : list A) : nat :=
  (List.length requests + batch_size - 1) / batch_size.

(** Line 279: the number logged for the batch that starts at [i]. *)
Definition batch_num (i : nat) : nat := i / batch_size + 1.

End BulkWrite.

(** ** The specification's formulas

    The definitions of this module follow the words of the
    specification, not the code; the properties below compare the two. *)

Module Spec.

Import Classifier PyNum Predictions.
Local Open Scope Q_scope.

(** Section 4.6: [bounded_daily_rate = max(recent_avg*0.1, recent_avg +
    clamp(slope*(H/2), -recent_avg*0.5, +inf))]. *)
Definition bounded_daily_rate (recent_avg slope : Q) (H : Z) : Q :=
  Qmax (recent_avg * 0.1)
       (recent_avg + Qmax (- recent_avg * 0.5) (slope * (inject_Z H / 2))).

(** Section 4.5: base confidence by sample count, lowered when the
    coefficient of variation exceeds 0.5, clamped to [30, 95]. *)
Definition confidence_spec (sqrt : Q -> Q) (n : Z) (v m : Q) : Q :=
  let base : Q :=
    if (30 <=? n)%Z then 85
    else if (14 <=? n)%Z && (n <? 30)%Z then 70
    else if (7 <=? n)%Z && (n <? 14)%Z then 50
    else 30 in
  let cv := sqrt v / m in
  let adjusted :=
    if Qltb 0 (sqrt v) && Qltb 0 m && Qltb 0.5 cv
    then base * (1 - Qmin 0.3 ((cv - 0.5) * 0.5))
    else base in
  Qmax 30 (Qmin 95 adjusted).

(** Section 4.4: the table of category, peak months and peak factor. *)
Definition category_peak (c : ComplaintCategory) : option (list Z * Q) :=
  match c with
  | snow => Some ([12; 1; 2]%Z, 3.0)
  | mosquitoes => Some ([6; 7; 8]%Z, 2.5)
  | mold => Some ([3; 4; 5]%Z, 2.0)
  | air_quality => Some ([6; 7; 8]%Z, 1.8)
  | overflow => Some ([11; 12]%Z, 1.5)
  | rodent => Some ([9; 10; 11]%Z, 1.3)
  | _ => None
  end.

Definition seasonal_factor_spec (c : ComplaintCategory)
    (current_month target_month : Z) : Q :=
  match category_peak c with
  | Some (peak, peak_factor) =>
      if memz target_month peak then peak_factor
      else if memz current_month peak then peak_factor * 0.8
      else 1.0
  | None => 1.0
  end.

(** Section 4.4: winter 1.1, summer 1.15, else 1.0. *)
Definition general_factor_spec (current_month : Z) : Q :=
  if memz current_month [12; 1; 2]%Z then 1.1
  else if memz current_month [6; 7; 8]%Z then 1.15
  else 1.0.

(** Section 4.3: arithmetic mean, the last [n] elements of a series and
    the least-squares slope of a series against its index 0, 1, ... *)
Definition total (xs : list Q) : Q := fold_right Qplus 0 xs.

Definition mean (xs : list Q) : Q :=
  total xs / inject_Z (Z.of_nat (List.length xs)).

Definition last_n {A : Type} (n : nat) (xs : list A) : list A :=
  rev (firstn n (rev xs)).

Definition indices (k : nat) : list Q :=
  map (fun i => inject_Z (Z.of_nat i)) (seq 0 k).

Definition ols_slope (ys : list Q) : Q :=
  let xs := indices (List.length ys) in
  let x_bar := mean xs in
  let y_bar := mean ys in
  let s_xy :=
    total (map (fun '(x, y) => (x - x_bar) * (y - y_bar)) (combine xs ys)) in
  let s_xx := total (map (fun x => (x - x_bar) * (x - x_bar)) xs) in
  if (List.length ys <? 2)%nat then 0
  else if Qeq_bool s_xx 0 then 0
  else s_xy / s_xx.

(** The denominator [n*Sum(x^2) - (Sum x)^2] of the regression over [k]
    points. *)
Definition regression_denominator (k : nat) : Z :=
  let xs := map Z.of_nat (seq 0 k) in
  (Z.of_nat k * fold_right Z.add 0 (map (fun x => x * x) xs)
   - fold_right Z.add 0 xs * fold_right Z.add 0 xs)%Z.

(** The observed daily data points of a borough: the counts of its
    rows, in the order of the rows (a row whose date does not parse is
    no observation). *)
Definition observed_counts (borough : string)
    (historical_data : list HistoricalPoint) : list Z :=
  map hd_count
      (filter (fun record =>
                 String.eqb (hd_borough record) borough
                 && match hd_date record with
                    | Some _ => true
                    | None => false
                    end)
              historical_data).

(** A computable stand-in for [x ** 0.5]: the square root to three
    decimals. *)
Definition sqrt_milli (x : Q) : Q :=
  inject_Z (Z.sqrt (Qfloor (x * 1000000))) / 1000.

End Spec.

(* ================================================================== *)
(** * Properties                                                       *)
(* ================================================================== *)

(** ** Strings *)

Module PyStrFacts.

Import PyStr.
Local Open Scope string_scope.

Lemma is_space_lower_char (c : ascii) : is_space (lower_char c) = is_space c.
Proof.
  destruct c as [[] [] [] [] [] [] [] []]; reflexivity.
Qed.

Lemma all_space_lower (s : string) : all_space (lower s) = all_space s.
Proof.
  induction s as [|c rest IH]; simpl.
  - reflexivity.
  - rewrite is_space_lower_char. unfold lower in IH. rewrite IH. reflexivity.
Qed.

Lemma lstrip_all_space (s : string) : all_space s = true -> lstrip s = "".
Proof.
  induction s as [|c rest IH]; simpl; intros H.
  - reflexivity.
  - apply andb_true_iff in H. destruct H as [Hc Hrest].
    rewrite Hc. auto.
Qed.

Lemma strip_all_space (s : string) : all_space s = true -> strip s = "".
Proof.
  intros H. unfold strip. rewrite (lstrip_all_space s H). reflexivity.
Qed.

Lemma prefix_all_space (w s : string) :
  all_space s = true -> starts_nonspace w = true -> prefix w s = false.
Proof.
  destruct w as [|a w']; simpl; intros Hs Hw.
  - discriminate.
  - destruct s as [|c s']; [reflexivity|].
    simpl in Hs. apply andb_true_iff in Hs. destruct Hs as [Hc _].
    simpl. destruct (ascii_dec a c) as [->|]; [|reflexivity].
    rewrite Hc in Hw. discriminate.
Qed.

Lemma contains_all_space (w s : string) :
  all_space s = true -> starts_nonspace w = true -> contains w s = false.
Proof.
  intros Hs Hw. induction s as [|c rest IH].
  - simpl. destruct w; [discriminate | reflexivity].
  - change (contains w (String c rest))
      with (prefix w (String c rest) || contains w rest).
    rewrite (prefix_all_space _ _ Hs Hw). simpl in Hs.
    apply andb_true_iff in Hs. destruct Hs as [_ Hrest].
    rewrite (IH Hrest). reflexivity.
Qed.

End PyStrFacts.

(** ** Numbers *)

Module PyNumFacts.

Import PyNum.
Local Open Scope Q_scope.

Lemma Qltb_lt (a b : Q) : Qltb a b = true <-> a < b.
Proof.
  unfold Qltb. rewrite negb_true_iff, <- not_true_iff_false, Qle_bool_iff.
  split; [apply Qnot_le_lt | apply Qlt_not_le].
Qed.

Lemma Qltb_ge (a b : Q) : Qltb a b = false <-> b <= a.
Proof.
  unfold Qltb. rewrite negb_false_iff, Qle_bool_iff. reflexivity.
Qed.

(** The case analysis every proof about [Qltb] starts with. *)
Ltac case_Qltb a b :=
  let H := fresh "Hcmp" in
  destruct (Qltb a b) eqn:H;
  [apply Qltb_lt in H | apply Qltb_ge in H].

Lemma py_max_Qmax (a b : Q) : py_max a b == Qmax a b.
Proof.
  unfold py_max. case_Qltb a b.
  - symmetry. apply Q.max_r. apply Qlt_le_weak. exact Hcmp.
  - symmetry. apply Q.max_l. exact Hcmp.
Qed.

Lemma py_min_Qmin (a b : Q) : py_min a b == Qmin a b.
Proof.
  unfold py_min. case_Qltb b a.
  - symmetry. apply Q.min_r. apply Qlt_le_weak. exact Hcmp.
  - symmetry. apply Q.min_l. exact Hcmp.
Qed.

Lemma py_max_bounds (a b : Q) : a <= py_max a b /\ b <= py_max a b.
Proof.
  rewrite py_max_Qmax. split; [apply Q.le_max_l | apply Q.le_max_r].
Qed.

Lemma py_min_bounds (a b : Q) : py_min a b <= a /\ py_min a b <= b.
Proof.
  rewrite py_min_Qmin. split; [apply Q.le_min_l | apply Q.le_min_r].
Qed.

Lemma py_maxz_max (a b : Z) : py_maxz a b = Z.max a b.
Proof.
  unfold py_maxz. destruct (Z.ltb_spec a b); lia.
Qed.

Lemma py_minz_min (a b : Z) : py_minz a b = Z.min a b.
Proof.
  unfold py_minz. destruct (Z.ltb_spec b a); lia.
Qed.

Lemma py_int_floor (x : Q) : 0 <= x -> py_int x = Qfloor x.
Proof.
  destruct x as [n d]. unfold Qle, py_int. simpl. intros H.
  apply Z.quot_div_nonneg; lia.
Qed.

Lemma py_int_opp (x : Q) : py_int (- x) = (- py_int x)%Z.
Proof.
  destruct x as [n d]. unfold py_int. simpl.
  apply Z.quot_opp_l. discriminate.
Qed.

Lemma py_int_comp (x y : Q) : x == y -> py_int x = py_int y.
Proof.
  intros E. destruct (Qlt_le_dec x 0) as [Hneg | Hpos].
  - assert (Hx : 0 <= - x) by lra.
    assert (Hy : 0 <= - y) by lra.
    assert (F : py_int (- x) = py_int (- y)).
    { rewrite (py_int_floor _ Hx), (py_int_floor _ Hy).
      apply Qfloor_comp. rewrite E. reflexivity. }
    rewrite !py_int_opp in F. lia.
  - assert (Hy : 0 <= y) by lra.
    rewrite (py_int_floor _ Hpos), (py_int_floor _ Hy).
    apply Qfloor_comp. exact E.
Qed.

Lemma py_int_nonneg (x : Q) : 0 <= x -> (0 <= py_int x)%Z.
Proof.
  intros H. rewrite (py_int_floor _ H).
  change 0%Z with (Qfloor 0). apply Qfloor_resp_le. exact H.
Qed.

Lemma round_half_even_floor (x : Q) :
  (Qfloor x <= round_half_even x <= Qfloor x + 1)%Z.
Proof.
  unfold round_half_even.
  destruct (Qcompare (x - inject_Z (Qfloor x)) (1 # 2));
    [destruct (Z.even (Qfloor x)) | |]; lia.
Qed.

Lemma round_half_even_Z (z : Z) : round_half_even (inject_Z z) = z.
Proof.
  unfold round_half_even. rewrite Qfloor_Z.
  destruct (Qcompare_spec (inject_Z z - inject_Z z) (1 # 2)) as [E | E | E];
    [lra | reflexivity | lra].
Qed.

Lemma round_half_even_comp (x y : Q) :
  x == y -> round_half_even x = round_half_even y.
Proof.
  intros E. unfold round_half_even.
  rewrite (Qfloor_comp _ _ E).
  assert (E' : x - inject_Z (Qfloor y) == y - inject_Z (Qfloor y))
    by (rewrite E; reflexivity).
  rewrite (Qcompare_comp _ _ E' (1 # 2) (1 # 2) (Qeq_refl _)).
  reflexivity.
Qed.

(** Rounding keeps a number between two integers that bound it. *)
Lemma round_half_even_between (a b : Z) (x : Q) :
  inject_Z a <= x -> x <= inject_Z b ->
  (a <= round_half_even x <= b)%Z.
Proof.
  intros Ha Hb. pose proof (round_half_even_floor x) as [Hlo Hhi].
  split.
  - apply Qfloor_resp_le in Ha. rewrite Qfloor_Z in Ha. lia.
  - destruct (Qlt_le_dec x (inject_Z b)) as [Hlt | Hge].
    + pose proof (Qfloor_le x) as Hf.
      assert (Hfb : inject_Z (Qfloor x) < inject_Z b) by lra.
      rewrite <- Zlt_Qlt in Hfb. lia.
    + assert (E : x == inject_Z b) by lra.
      rewrite (round_half_even_comp _ _ E), round_half_even_Z. lia.
Qed.

(** [round(x, ndigits)] keeps [x] between two bounds that have at most
    [ndigits] decimals. *)
Lemma py_round_between (a b : Z) (x : Q) (ndigits : nat) :
  inject_Z a / inject_Z (10 ^ Z.of_nat ndigits) <= x ->
  x <= inject_Z b / inject_Z (10 ^ Z.of_nat ndigits) ->
  inject_Z a / inject_Z (10 ^ Z.of_nat ndigits) <= py_round x ndigits
  /\ py_round x ndigits <= inject_Z b / inject_Z (10 ^ Z.of_nat ndigits).
Proof.
  intros Ha Hb. unfold py_round.
  set (scale := inject_Z (10 ^ Z.of_nat ndigits)) in *.
  assert (Hs : 0 < scale).
  { unfold scale. change 0 with (inject_Z 0). rewrite <- Zlt_Qlt.
    apply Z.pow_pos_nonneg; lia. }
  assert (Hn : ~ scale == 0) by lra.
  assert (Ha' : inject_Z a <= x * scale).
  { assert (E : inject_Z a == inject_Z a / scale * scale) by (field; exact Hn).
    rewrite E. apply Qmult_le_compat_r; lra. }
  assert (Hb' : x * scale <= inject_Z b).
  { assert (E : inject_Z b == inject_Z b / scale * scale) by (field; exact Hn).
    rewrite E. apply Qmult_le_compat_r; lra. }
  destruct (round_half_even_between a b (x * scale) Ha' Hb') as [Hlo Hhi].
  rewrite Zle_Qle in Hlo, Hhi.
  assert (Hi : 0 <= / scale) by (apply Qlt_le_weak, Qinv_lt_0_compat, Hs).
  split; unfold Qdiv; apply Qmult_le_compat_r; assumption.
Qed.

Lemma insert_desc_perm {A : Type} (key : A -> Z) (x : A) (xs : list A) :
  Permutation (insert_desc key x xs) (x :: xs).
Proof.
  induction xs as [|y rest IH]; simpl.
  - apply Permutation_refl.
  - destruct (key x <? key y)%Z.
    + eapply perm_trans; [apply perm_skip, IH | apply perm_swap].
    + apply Permutation_refl.
Qed.

(** Sorting keeps the elements. *)
Lemma sort_desc_perm {A : Type} (key : A -> Z) (xs : list A) :
  Permutation (sort_desc key xs) xs.
Proof.
  induction xs as [|x rest IH]; simpl.
  - apply perm_nil.
  - eapply perm_trans; [apply insert_desc_perm | apply perm_skip, IH].
Qed.

Lemma sort_desc_In {A : Type} (key : A -> Z) (xs : list A) (x : A) :
  In x (sort_desc key xs) <-> In x xs.
Proof.
  split; apply Permutation_in;
    [apply sort_desc_perm | apply Permutation_sym, sort_desc_perm].
Qed.

End PyNumFacts.

(** ** The classifier *)

Module ClassifierFacts.

Import PyStr PyStrFacts Classifier.
Local Open Scope string_scope.

(** The chain of [request_type_of] is its three tiers in sequence, then
    the initial value [other]. *)
Lemma request_type_of_tiers (complaint_lower descriptor combined_text : string) :
  request_type_of complaint_lower descriptor combined_text =
  match new_type_rules combined_text with
  | Some c => c
  | None =>
      match agency_code_rules complaint_lower descriptor with
      | Some c => c
      | None =>
          match generic_keyword_rules combined_text with
          | Some c => c
          | None => other
          end
      end
  end.
Proof.
  unfold request_type_of, new_type_rules, agency_code_rules,
    generic_keyword_rules.
  repeat match goal with
         | |- context [if ?b then _ else _] => destruct b; try reflexivity
         end.
Qed.

Lemma is_high_priority_type_cases (c : ComplaintCategory) :
  is_high_priority_type c =
  match c with
  | illegal_dumping | rodent | overflow | hazardous_materials | mold
  | air_quality | water_quality => true
  | _ => false
  end.
Proof.
  destruct c; reflexivity.
Qed.

Lemma request_type_of_all_space (descriptor combined_text : string) :
  all_space descriptor = true ->
  all_space combined_text = true ->
  request_type_of "" descriptor combined_text = other.
Proof.
  intros Hd Hc.
  unfold request_type_of, any_in, existsb.
  rewrite ?(fun w => contains_all_space w combined_text Hc) by reflexivity.
  rewrite ?(fun w => contains_all_space w descriptor Hd) by reflexivity.
  reflexivity.
Qed.

(** The first block of the chain (lines 100-119) comes before the
    agency codes: ("Dumpster Complaint", "Snow on the lid") matches the
    agency code "dumpster complaint" and is classified [snow]. *)
Remark new_type_rule_before_agency_code :
  agency_code_rules (complaint_lower_of "Dumpster Complaint")
                    (descriptor_of "Snow on the lid") = Some trash_issue
  /\ classify "Dumpster Complaint" "Snow on the lid" = snow.
Proof.
  split; reflexivity.
Qed.

(** C6: ("Residential Disposal Complaint", "Storage Area issue") is
    classified [other] and ("", "overflowing dumpster") is classified
    [overflow].  The chain is evaluated in the order: the rules of lines
    100-119 for the complaint types found in real data, then the
    agency-code rules, then the generic keyword lists, then the
    catch-all [other].  So, past the first block, a matching agency-code
    rule decides the category whatever generic keywords occur, a
    matching generic keyword list decides it when no agency code
    matches, and [other] is left when nothing matches; the record
    ("Dumpster Complaint", "illegal dumping of trash") matches both an
    agency code and the generic keyword "illegal dumping" and gets the
    agency code's category. *)
Theorem classify_examples_and_precedence :
  classify "Residential Disposal Complaint" "Storage Area issue" = other
  /\ classify "" "overflowing dumpster" = overflow
  /\ (forall complaint_type descriptor,
        classify complaint_type descriptor =
        match new_type_rules (combined_text_of complaint_type descriptor) with
        | Some c => c
        | None =>
            match agency_code_rules (complaint_lower_of complaint_type)
                                    (descriptor_of descriptor) with
            | Some c => c
            | None =>
                match generic_keyword_rules
                        (combined_text_of complaint_type descriptor) with
                | Some c => c
                | None => other
                end
            end
        end)
  /\ (forall complaint_type descriptor c,
        new_type_rules (combined_text_of complaint_type descriptor) = None ->
        agency_code_rules (complaint_lower_of complaint_type)
                          (descriptor_of descriptor) = Some c ->
        classify complaint_type descriptor = c)
  /\ (forall complaint_type descriptor c,
        new_type_rules (combined_text_of complaint_type descriptor) = None ->
        agency_code_rules (complaint_lower_of complaint_type)
                          (descriptor_of descriptor) = None ->
        generic_keyword_rules (combined_text_of complaint_type descriptor)
        = Some c ->
        classify complaint_type descriptor = c)
  /\ (generic_keyword_rules
        (combined_text_of "Dumpster Complaint" "illegal dumping of trash")
      = Some illegal_dumping
      /\ classify "Dumpster Complaint" "illegal dumping of trash"
         = trash_issue).
Proof.
  assert (Htiers : forall complaint_type descriptor,
             classify complaint_type descriptor =
             match new_type_rules
                     (combined_text_of complaint_type descriptor) with
             | Some c => c
             | None =>
                 match agency_code_rules (complaint_lower_of complaint_type)
                                         (descriptor_of descriptor) with
                 | Some c => c
                 | None =>
                     match generic_keyword_rules
                             (combined_text_of complaint_type descriptor) with
                     | Some c => c
                     | None => other
                     end
                 end
             end).
  { intros complaint_type descriptor. unfold classify.
    apply request_type_of_tiers. }
  split; [vm_compute; reflexivity | split; [vm_compute; reflexivity |]].
  split; [exact Htiers | split; [|split]].
  - intros complaint_type descriptor c H1 H2.
    rewrite Htiers, H1, H2. reflexivity.
  - intros complaint_type descriptor c H1 H2 H3.
    rewrite Htiers, H1, H2, H3. reflexivity.
  - split; vm_compute; reflexivity.
Qed.

Lemma classify_examples_and_precedence_witness :
  classify "Dead Animal" "Rat on the sidewalk with trash" = rodent
  /\ classify "Request Large Bulky Item Collection" "Garbage bags" = trash_issue.
Proof.
  destruct classify_examples_and_precedence as (_ & _ & _ & Hagency & Hgeneric & _).
  split.
  - apply Hagency; vm_compute; reflexivity.
  - apply Hgeneric; vm_compute; reflexivity.
Defined.

(** C7: classification is total.  Every pair of strings has exactly one
    category; when no rule of the three tiers matches the category is
    [other]; empty or whitespace-only input is classified [other]. *)
Theorem classify_total :
  (forall complaint_type descriptor,
      exists c, classify complaint_type descriptor = c
                /\ forall c', classify complaint_type descriptor = c' -> c' = c)
  /\ (forall complaint_type descriptor,
        new_type_rules (combined_text_of complaint_type descriptor) = None ->
        agency_code_rules (complaint_lower_of complaint_type)
                          (descriptor_of descriptor) = None ->
        generic_keyword_rules (combined_text_of complaint_type descriptor)
          = None ->
        classify complaint_type descriptor = other)
  /\ (forall complaint_type descriptor,
        all_space complaint_type = true ->
        all_space descriptor = true ->
        classify complaint_type descriptor = other).
Proof.
  split; [|split].
  - intros complaint_type descriptor.
    exists (classify complaint_type descriptor). split; [reflexivity|].
    intros c' H. symmetry. exact H.
  - intros complaint_type descriptor H1 H2 H3. unfold classify.
    rewrite request_type_of_tiers, H1, H2, H3. reflexivity.
  - intros complaint_type descriptor Hc Hd.
    unfold classify, combined_text_of, complaint_lower_of, descriptor_of.
    rewrite (strip_all_space _ Hc).
    apply request_type_of_all_space.
    + rewrite all_space_lower. exact Hd.
    + rewrite all_space_lower. simpl. rewrite all_space_lower. exact Hd.
Qed.

Lemma classify_total_witness :
  classify "Noise" "Loud music" = other
  /\ classify (String "009" " ") "   " = other.
Proof.
  split.
  - apply (proj1 (proj2 classify_total)); reflexivity.
  - apply (proj2 (proj2 classify_total)); reflexivity.
Defined.

(** C9, as stated, fails: "urgent" in the descriptor, or "emergency" in
    the complaint type, does not make a request urgent. *)
Lemma urgent_keyword_in_descriptor_ignored :
  infer_priority other "Noise" "URGENT: loud music" = normal
  /\ infer_priority other "Emergency response" "slow" = normal
  /\ ~ (forall request_type complaint_type descriptor,
          contains "urgent" (combined_text_of complaint_type descriptor)
          || contains "emergency" (combined_text_of complaint_type descriptor)
          = true ->
          infer_priority request_type complaint_type descriptor = urgent).
Proof.
  split; [reflexivity | split; [reflexivity |]].
  intros H.
  specialize (H other "Noise" "URGENT: loud music" eq_refl).
  discriminate H.
Qed.

(** C9 (amended): the priority is [urgent] when "urgent" occurs in the
    lower-cased complaint type or "emergency" occurs in the lower-cased
    descriptor, whatever the category; otherwise it is [high] when the
    category is one of illegal_dumping, rodent, overflow,
    hazardous_materials, mold, air_quality, water_quality; otherwise it
    is [normal]. *)
Theorem infer_priority_spec (request_type : ComplaintCategory)
    (complaint_type descriptor : string) :
  infer_priority request_type complaint_type descriptor =
  if contains "urgent" (lower (strip complaint_type))
     || contains "emergency" (lower descriptor)
  then urgent
  else match request_type with
       | illegal_dumping | rodent | overflow | hazardous_materials | mold
       | air_quality | water_quality => high
       | _ => normal
       end.
Proof.
  unfold infer_priority, priority_of, complaint_lower_of, descriptor_of.
  rewrite is_high_priority_type_cases.
  destruct (contains "urgent" (lower (strip complaint_type))
            || contains "emergency" (lower descriptor));
    [reflexivity | destruct request_type; reflexivity].
Qed.

End ClassifierFacts.

(** ** The prediction service *)

Module PredictionFacts.

Import PyStr PyNum PyNumFacts Classifier Predictions Spec.
Local Open Scope string_scope.
Local Open Scope Z_scope.
Local Open Scope Q_scope.

(** *** Overflow risk *)

Lemma risk_score_formula (overflow_count recent_collections : Z) :
  risk_score overflow_count recent_collections =
  Z.min 100 (Z.min 100 (overflow_count * 10)
             + Z.max 0 (50 - recent_collections * 5)).
Proof.
  unfold risk_score. rewrite !py_minz_min, py_maxz_max. reflexivity.
Qed.

(** C3: for non-negative counts the risk score is
    [min(100, min(100, overflow*10) + max(0, 50 - collections*5))] and
    lies in [0, 100]; the level is "high" above 70, "medium" above 40 and
    "low" otherwise, each with its recommendation; (0, 10) gives score 0
    and level "low", (15, 0) gives score 100 and level "high". *)
Theorem risk_score_spec (zone_data : OverflowZone) :
  (0 <= oz_overflow_count zone_data)%Z ->
  (0 <= oz_recent_collections zone_data)%Z ->
  let r := risk_zone_of zone_data in
  let score := rz_risk_score r in
  score = Z.min 100 (Z.min 100 (oz_overflow_count zone_data * 10)
                     + Z.max 0 (50 - oz_recent_collections zone_data * 5))
  /\ (0 <= score <= 100)%Z
  /\ ((70 < score)%Z ->
      rz_risk_level r = "high"
      /\ rz_recommendation r = "Increase collection frequency")
  /\ ((40 < score <= 70)%Z ->
      rz_risk_level r = "medium" /\ rz_recommendation r = "Monitor closely")
  /\ ((score <= 40)%Z ->
      rz_risk_level r = "low" /\ rz_recommendation r = "Normal operations")
  /\ risk_score 0 10 = 0%Z /\ risk_level (risk_score 0 10) = "low"
  /\ risk_score 15 0 = 100%Z /\ risk_level (risk_score 15 0) = "high".
Proof.
  intros Ho Hc r score. subst r score. simpl.
  rewrite risk_score_formula.
  set (s := Z.min 100 (Z.min 100 (oz_overflow_count zone_data * 10)
                       + Z.max 0 (50 - oz_recent_collections zone_data * 5))).
  unfold risk_level, recommendation.
  repeat split; try reflexivity; try (subst s; lia).
  - destruct (Z.ltb_spec 70 s); [reflexivity | lia].
  - destruct (Z.ltb_spec 70 s); [reflexivity | lia].
  - destruct (Z.ltb_spec 70 s); [lia|].
    destruct (Z.ltb_spec 40 s); [reflexivity | lia].
  - destruct (Z.ltb_spec 70 s); [lia|].
    destruct (Z.ltb_spec 40 s); [reflexivity | lia].
  - destruct (Z.ltb_spec 70 s); [lia|].
    destruct (Z.ltb_spec 40 s); [lia | reflexivity].
  - destruct (Z.ltb_spec 70 s); [lia|].
    destruct (Z.ltb_spec 40 s); [lia | reflexivity].
Qed.

Lemma risk_score_spec_witness :
  rz_risk_score (risk_zone_of (mk_overflow_zone "BKN-01" 3 1 6)) = 50%Z
  /\ rz_risk_level (risk_zone_of (mk_overflow_zone "BKN-01" 3 1 6)) = "medium".
Proof.
  pose proof (risk_score_spec (mk_overflow_zone "BKN-01" 3 1 6)) as H.
  simpl in H. specialize (H ltac:(lia) ltac:(lia)).
  destruct H as (Hs & _ & _ & Hm & _).
  split; [exact Hs | apply Hm; rewrite Hs; lia].
Defined.

(** *** Prediction assembly *)

Lemma predicted_daily_bounded (recent_avg slope : Q) (H : Z) :
  predicted_daily recent_avg slope H == bounded_daily_rate recent_avg slope H.
Proof.
  unfold predicted_daily, bounded_daily_rate, true_div.
  rewrite !py_max_Qmax. reflexivity.
Qed.

(** C2: the predicted total is [max(0, int(bounded_daily_rate * H))]
    with [bounded_daily_rate = max(recent_avg*0.1, recent_avg +
    max(-recent_avg*0.5, slope*(H/2)))], for every recent average, slope
    and horizon (in particular for [recent_avg >= 0] and [H >= 0]); it
    is never negative; for recent_avg = 10, slope = -5, H = 10 it is at
    least 10; it is the [predicted_complaints] field of the borough
    prediction. *)
Theorem predicted_total_spec (recent_avg slope : Q) (H : Z) :
  predicted_total recent_avg slope H =
    Z.max 0 (py_int (bounded_daily_rate recent_avg slope H * inject_Z H))
  /\ (0 <= predicted_total recent_avg slope H)%Z
  /\ (10 <= predicted_total 10 (-5) 10)%Z
  /\ forall pow_half current_date borough counts,
       bp_predicted_complaints
         (borough_prediction pow_half current_date H borough counts) =
       Z.max 0 (py_int (bounded_daily_rate (Predictions.recent_avg counts)
                                           (trend_slope counts) H
                        * inject_Z H)).
Proof.
  assert (E : forall r sl,
             predicted_total r sl H =
             Z.max 0 (py_int (bounded_daily_rate r sl H * inject_Z H))).
  { intros r sl. unfold predicted_total. rewrite py_maxz_max. f_equal.
    apply py_int_comp. rewrite predicted_daily_bounded. reflexivity. }
  repeat split.
  - apply E.
  - rewrite E. lia.
  - vm_compute. discriminate.
  - intros pow_half current_date borough counts. simpl. apply E.
Qed.

(** *** Confidence *)

Lemma confidence_range (pow_half : Q -> Q) (data_points : Z)
    (variance overall_avg : Q) :
  30 <= confidence pow_half data_points variance overall_avg <= 95.
Proof.
  unfold confidence.
  match goal with
  | |- _ <= py_max 30 (py_min 95 ?c) <= _ => generalize c; intros conf
  end.
  rewrite py_max_Qmax, py_min_Qmin. split.
  - apply Q.le_max_l.
  - apply Q.max_lub; [lra | apply Q.le_min_l].
Qed.

(** C4: the confidence of the code is the specification's formula: base
    85, 70, 50 or 30 by sample count, multiplied by
    [1 - min(0.3, (cv - 0.5) * 0.5)] when the standard deviation and the
    mean are positive and [cv = sqrt(v)/m] exceeds 0.5, then clamped to
    [30, 95]. *)
Theorem confidence_refines_spec (pow_half : Q -> Q) (n : Z) (v m : Q) :
  confidence pow_half n v m == confidence_spec pow_half n v m
  /\ 30 <= confidence pow_half n v m <= 95.
Proof.
  split; [|apply confidence_range].
  unfold confidence, confidence_spec.
  rewrite py_max_Qmax, py_min_Qmin.
  assert (Hbase :
            (if (30 <=? n)%Z then 85
             else if (14 <=? n)%Z then 70
             else if (7 <=? n)%Z then 50 else 30 : Q) =
            (if (30 <=? n)%Z then 85
             else if (14 <=? n)%Z && (n <? 30)%Z then 70
             else if (7 <=? n)%Z && (n <? 14)%Z then 50 else 30 : Q)).
  { destruct (Z.leb_spec 30 n); [reflexivity|].
    destruct (Z.leb_spec 14 n), (Z.ltb_spec n 30); try lia; try reflexivity.
    destruct (Z.leb_spec 7 n), (Z.ltb_spec n 14); try lia; reflexivity. }
  rewrite Hbase.
  destruct (Qltb 0 (pow_half v)), (Qltb 0 m); simpl;
    try reflexivity.
  destruct (Qltb 0.5 (pow_half v / m)); [|reflexivity].
  rewrite py_min_Qmin. reflexivity.
Qed.

(** *** Seasonal factors *)

(** C8, as stated, fails for the borough forecast, which applies no
    month factor: in January the prediction for three days of 10
    complaints over 10 days is 100, not [int(100 * 1.1) = 110]. *)
Lemma borough_forecast_has_no_month_factor :
  let january := mk_datetime 2025 1 15 in
  let counts := [10; 10; 10]%Z in
  bp_predicted_complaints
    (borough_prediction sqrt_milli january 10 "BRONX" counts) = 100%Z
  /\ py_int (inject_Z 100 * general_factor_spec (month january)) = 110%Z
  /\ ~ (forall pow_half current_date days_ahead borough counts,
          bp_predicted_complaints
            (borough_prediction pow_half current_date days_ahead borough
                                counts) =
          py_int (inject_Z (predicted_total (Predictions.recent_avg counts)
                                            (trend_slope counts) days_ahead)
                  * general_factor_spec (month current_date))).
Proof.
  split; [vm_compute; reflexivity | split; [vm_compute; reflexivity |]].
  intros H.
  specialize (H sqrt_milli (mk_datetime 2025 1 15) 10%Z "BRONX"
                [10; 10; 10]%Z).
  vm_compute in H. discriminate H.
Qed.

Lemma hotspot_seasonal_factor_spec (current_month : Z) :
  hotspot_seasonal_factor current_month = general_factor_spec current_month.
Proof.
  reflexivity.
Qed.

(** C8 (amended): the category seasonal factor is the category's peak
    factor when the target month is in its peak set, the peak factor
    times 0.8 when the current month is in the peak set and the target
    month is not, and 1.0 otherwise (also for a key that has no entry);
    for snow the peak months are 12, 1, 2 and the factor is 3.0.  The
    hotspot forecast multiplies its predicted requests by 1.1 when the
    current month is in {12, 1, 2}, by 1.15 when it is in {6, 7, 8} and
    by 1.0 otherwise.  The borough forecast does not depend on the
    month. *)
Theorem seasonal_factor_refines_spec :
  (forall c current_month target_month,
      seasonal_factor (category_name c) current_month target_month =
      seasonal_factor_spec c current_month target_month)
  /\ (forall key current_month target_month,
        lookup key seasonal_patterns = None ->
        seasonal_factor key current_month target_month = 1.0)
  /\ (forall current_month, seasonal_factor "snow" current_month 1 = 3.0)
  /\ seasonal_factor "snow" 7 7 = 1.0
  /\ (forall current_date days_ahead historical_patterns r,
        In r (predict_hotspots current_date days_ahead historical_patterns) ->
        exists pattern,
          In pattern historical_patterns
          /\ hs_predicted_requests r =
             py_int (inject_Z (py_int (true_div (hp_total_requests pattern) 90
                                       * inject_Z days_ahead))
                     * general_factor_spec (month current_date)))
  /\ (forall pow_half date1 date2 days_ahead borough counts,
        bp_predicted_complaints
          (borough_prediction pow_half date1 days_ahead borough counts) =
        bp_predicted_complaints
          (borough_prediction pow_half date2 days_ahead borough counts)).
Proof.
  repeat split.
  - intros c current_month target_month. destruct c; reflexivity.
  - intros key current_month target_month H. unfold seasonal_factor.
    rewrite H. reflexivity.
  - intros current_date days_ahead historical_patterns r Hr.
    unfold predict_hotspots in Hr. apply sort_desc_In in Hr.
    apply in_map_iff in Hr. destruct Hr as (p & <- & Hp).
    apply in_map_iff in Hp. destruct Hp as (pattern & <- & Hpat).
    exists pattern. split; [exact Hpat | reflexivity].
Qed.

Lemma seasonal_factor_refines_spec_witness :
  seasonal_factor "graffiti" 12 1 = 1.0
  /\ exists pattern,
       In pattern [mk_pattern 40.7 (-74) 180 2 5]
       /\ 15%Z =
          py_int (inject_Z (py_int (true_div (hp_total_requests pattern) 90
                                    * inject_Z 7))
                  * general_factor_spec 1).
Proof.
  pose proof seasonal_factor_refines_spec as (_ & Hnone & _ & _ & Hhot & _).
  split.
  - apply Hnone. reflexivity.
  - apply (Hhot (mk_datetime 2025 1 15) 7%Z [mk_pattern 40.7 (-74) 180 2 5]
             (apply_seasonal_weighting 1
                (hotspot_of_pattern 7 (mk_pattern 40.7 (-74) 180 2 5)))).
    left. reflexivity.
Defined.

(** *** Trend estimate *)

Lemma sumz_fold_right (xs : list Z) : sumz xs = fold_right Z.add 0%Z xs.
Proof.
  unfold sumz. apply fold_symmetric; intros; lia.
Qed.

Lemma fold_left_Qplus_acc (xs : list Q) (a : Q) :
  fold_left Qplus xs a == a + total xs.
Proof.
  revert a. induction xs as [|x rest IH]; intros a; simpl.
  - ring.
  - rewrite IH. ring.
Qed.

Lemma sumq_total (xs : list Q) : sumq xs == total xs.
Proof.
  unfold sumq. rewrite fold_left_Qplus_acc. ring.
Qed.

Lemma total_inject_Z (xs : list Z) :
  total (map inject_Z xs) == inject_Z (fold_right Z.add 0%Z xs).
Proof.
  induction xs as [|x rest IH]; simpl.
  - reflexivity.
  - rewrite IH, inject_Z_plus. reflexivity.
Qed.

Lemma mean_inject_Z (xs : list Z) :
  mean (map inject_Z xs) == true_div (sumz xs) (len xs).
Proof.
  unfold mean, true_div, len. rewrite length_map, total_inject_Z, sumz_fold_right.
  reflexivity.
Qed.

Lemma last_n_skipn {A : Type} (n : nat) (xs : list A) :
  last_n n xs = skipn (List.length xs - n) xs.
Proof.
  unfold last_n. rewrite firstn_rev, rev_involutive. reflexivity.
Qed.

Lemma slice_last_min {A : Type} (k : nat) (xs : list A) :
  (0 < k)%nat ->
  slice_last (py_minz (Z.of_nat k) (len xs)) xs =
  last_n (Nat.min k (List.length xs)) xs.
Proof.
  intros Hk. unfold slice_last, len. rewrite py_minz_min, last_n_skipn.
  destruct xs as [|x rest].
  { destruct (_ =? _)%Z; rewrite ?skipn_nil; reflexivity. }
  destruct (Z.eqb_spec (Z.min (Z.of_nat k) (Z.of_nat (List.length (x :: rest)))) 0)
    as [E | _].
  - simpl List.length in E. lia.
  - f_equal. lia.
Qed.

Lemma centred_products (a b : Q) (xs ys : list Z) :
  List.length xs = List.length ys ->
  total (map (fun '(x, y) => (x - a) * (y - b))
             (combine (map inject_Z xs) (map inject_Z ys))) ==
  inject_Z (fold_right Z.add 0%Z
              (map (fun '(x, y) => (x * y)%Z) (combine xs ys)))
  - a * inject_Z (fold_right Z.add 0%Z ys)
  - b * inject_Z (fold_right Z.add 0%Z xs)
  + inject_Z (Z.of_nat (List.length xs)) * a * b.
Proof.
  revert ys. induction xs as [|x rest IH]; intros [|y ys] H;
    try discriminate H.
  - simpl. ring.
  - cbn [map combine fold_right total List.length].
    rewrite IH by (simpl in H; lia).
    rewrite Nat2Z.inj_succ. unfold Z.succ.
    rewrite !inject_Z_plus, inject_Z_mult. ring.
Qed.

Lemma centred_squares (a : Q) (xs : list Z) :
  total (map (fun x => (x - a) * (x - a)) (map inject_Z xs)) ==
  inject_Z (fold_right Z.add 0%Z (map (fun x => (x * x)%Z) xs))
  - 2 * a * inject_Z (fold_right Z.add 0%Z xs)
  + inject_Z (Z.of_nat (List.length xs)) * a * a.
Proof.
  induction xs as [|x rest IH].
  - simpl. ring.
  - cbn [map fold_right total List.length]. rewrite IH.
    rewrite Nat2Z.inj_succ. unfold Z.succ.
    rewrite !inject_Z_plus, inject_Z_mult. ring.
Qed.

Lemma indices_range (k : nat) : indices k = map inject_Z (range k).
Proof.
  unfold indices, range. rewrite map_map. reflexivity.
Qed.

Lemma length_range (k : nat) : List.length (range k) = k.
Proof.
  unfold range. rewrite length_map, length_seq. reflexivity.
Qed.

Lemma regression_slope_ols (trend_counts : list Z) :
  regression_slope trend_counts == ols_slope (map inject_Z trend_counts).
Proof.
  unfold regression_slope, ols_slope. rewrite length_map.
  destruct (Z.ltb_spec 1 (len trend_counts)) as [Hn | Hn];
    destruct (Nat.ltb_spec (List.length trend_counts) 2) as [Hm | Hm];
    unfold len in Hn; try lia; [|reflexivity].
  cbv zeta. rewrite indices_range, !sumz_fold_right.
  set (xs := range (List.length trend_counts)).
  assert (Hlen : List.length xs = List.length trend_counts)
    by apply length_range.
  pose proof (mean_inject_Z xs) as Hx.
  pose proof (mean_inject_Z trend_counts) as Hy.
  unfold true_div, len in Hx, Hy. rewrite sumz_fold_right in Hx, Hy.
  rewrite Hlen in Hx.
  set (x_bar := mean (map inject_Z xs)) in *.
  set (y_bar := mean (map inject_Z trend_counts)) in *.
  pose proof (centred_products x_bar y_bar xs trend_counts Hlen) as Hxy.
  pose proof (centred_squares x_bar xs) as Hxx.
  rewrite Hlen in Hxy, Hxx.
  unfold len, true_div.
  set (n := Z.of_nat (List.length trend_counts)) in *.
  set (sum_x := fold_right Z.add 0%Z xs) in *.
  set (sum_y := fold_right Z.add 0%Z trend_counts) in *.
  set (sum_xy := fold_right Z.add 0%Z
                   (map (fun '(x, y) => (x * y)%Z) (combine xs trend_counts)))
    in *.
  set (sum_x2 := fold_right Z.add 0%Z (map (fun x => (x * x)%Z) xs)) in *.
  set (s_xy := total (map _ (combine _ _))) in *.
  set (s_xx := total (map _ (map _ _))) in *.
  set (den := (n * sum_x2 - sum_x * sum_x)%Z).
  set (num := (n * sum_xy - sum_x * sum_y)%Z).
  assert (Hn0 : ~ inject_Z n == 0).
  { change 0 with (inject_Z 0). rewrite inject_Z_injective. lia. }
  assert (Hsxx : s_xx == inject_Z den / inject_Z n).
  { rewrite Hxx, Hx. unfold den, Z.sub.
    rewrite inject_Z_plus, inject_Z_opp, !inject_Z_mult.
    field. exact Hn0. }
  assert (Hsxy : s_xy == inject_Z num / inject_Z n).
  { rewrite Hxy, Hx, Hy. unfold num, Z.sub.
    rewrite inject_Z_plus, inject_Z_opp, !inject_Z_mult.
    field. exact Hn0. }
  destruct (Z.eqb_spec den 0) as [E | E]; simpl negb; cbv iota;
    destruct (Qeq_bool s_xx 0) eqn:Hq; try reflexivity.
  - apply Qeq_bool_neq in Hq. exfalso. apply Hq.
    rewrite Hsxx, E. field. exact Hn0.
  - apply Qeq_bool_eq in Hq. exfalso. apply E.
    apply inject_Z_injective.
    assert (F : inject_Z den == inject_Z den / inject_Z n * inject_Z n)
      by (field; exact Hn0).
    rewrite F, <- Hsxx, Hq. ring.
  - assert (Hd0 : ~ inject_Z den == 0).
    { change 0 with (inject_Z 0). rewrite inject_Z_injective. exact E. }
    rewrite Hsxy, Hsxx. field. split; assumption.
Qed.

(** C5: for a non-empty series, [recent_avg] is the mean of the last
    min(30, len) counts, the historical average is the mean of all
    counts, and the slope is the least-squares slope of the last
    min(60, len) counts against their index 0, 1, ...; the slope is 0
    when that window has fewer than 2 points or when the regression
    denominator is 0. *)
Theorem trend_estimate_spec (counts : list Z) :
  counts <> [] ->
  let recent := last_n (Nat.min 30 (List.length counts)) counts in
  let window := last_n (Nat.min 60 (List.length counts)) counts in
  Predictions.recent_avg counts == mean (map inject_Z recent)
  /\ Predictions.overall_avg counts == mean (map inject_Z counts)
  /\ trend_slope counts == ols_slope (map inject_Z window)
  /\ ((List.length window < 2)%nat -> trend_slope counts == 0)
  /\ (regression_denominator (List.length window) = 0%Z ->
      trend_slope counts == 0).
Proof.
  intros Hne recent window. subst recent window.
  assert (Hslope : trend_slope counts =
                   regression_slope
                     (last_n (Nat.min 60 (List.length counts)) counts)).
  { unfold trend_slope. cbv zeta. change 60%Z with (Z.of_nat 60).
    rewrite slice_last_min by lia. reflexivity. }
  repeat split.
  - unfold Predictions.recent_avg. cbv zeta. change 30%Z with (Z.of_nat 30).
    rewrite slice_last_min by lia.
    destruct (last_n (Nat.min 30 (List.length counts)) counts) eqn:E.
    + reflexivity.
    + rewrite mean_inject_Z. reflexivity.
  - unfold Predictions.overall_avg. destruct counts as [|c rest].
    + reflexivity.
    + rewrite mean_inject_Z. reflexivity.
  - rewrite Hslope. apply regression_slope_ols.
  - intros Hlt. rewrite Hslope. unfold regression_slope, len.
    destruct (Z.ltb_spec 1
                (Z.of_nat
                   (List.length
                      (last_n (Nat.min 60 (List.length counts)) counts))));
      [lia | reflexivity].
  - intros Hden. rewrite Hslope. unfold regression_slope.
    destruct (1 <? len _)%Z; [|reflexivity].
    cbv zeta. rewrite !sumz_fold_right.
    unfold regression_denominator, len, range in *. rewrite Hden.
    reflexivity.
Qed.

Lemma trend_estimate_spec_witness :
  trend_slope [5]%Z == 0 /\ trend_slope [1; 2; 4; 8]%Z == ols_slope [1; 2; 4; 8].
Proof.
  split.
  - assert (Hne : [5%Z] <> []) by discriminate.
    destruct (trend_estimate_spec [5]%Z Hne) as (_ & _ & _ & Hshort & _).
    apply Hshort. simpl. lia.
  - assert (Hne : [1; 2; 4; 8]%Z <> []) by discriminate.
    destruct (trend_estimate_spec [1; 2; 4; 8]%Z Hne) as (_ & _ & Hols & _).
    exact Hols.
Defined.

(** *** The borough forecast *)

Lemma lookup_append_to {V : Type} (b k : string) (v : V)
    (d : list (string * list V)) :
  lookup b (append_to k v d) =
  if String.eqb b k
  then Some (get_list b d ++ [v])%list
  else lookup b d.
Proof.
  induction d as [|[k' vs] rest IH]; simpl.
  - reflexivity.
  - destruct (String.eqb_spec k k') as [-> | Hk]; simpl.
    + unfold get_list. simpl. destruct (String.eqb b k'); reflexivity.
    + destruct (String.eqb_spec b k') as [-> | Hb].
      * destruct (String.eqb_spec k' k) as [E | _]; [congruence | reflexivity].
      * unfold get_list in *. simpl.
        destruct (String.eqb_spec b k') as [E | _]; [congruence | exact IH].
Qed.

Lemma keys_append_to {V : Type} (k : string) (v : V)
    (d : list (string * list V)) :
  NoDup (map fst d) -> NoDup (map fst (append_to k v d)).
Proof.
  intros Hd.
  assert (Hkeys : forall d : list (string * list V),
             map fst (append_to k v d) = map fst d
             \/ (~ In k (map fst d)
                 /\ map fst (append_to k v d) = (map fst d ++ [k])%list)).
  { clear. induction d as [|[k' vs] rest IH]; simpl.
    - right. split; [tauto | reflexivity].
    - destruct (String.eqb_spec k k') as [-> | Hk]; simpl.
      + left. reflexivity.
      + destruct IH as [E | [Hn E]]; rewrite E.
        * left. reflexivity.
        * right. split; [|reflexivity]. intros [F | F]; [congruence | tauto]. }
  destruct (Hkeys d) as [E | [Hn E]]; rewrite E.
  - exact Hd.
  - apply NoDup_app; [exact Hd | repeat constructor; simpl; tauto |].
    intros x Hx [<- | []]. exact (Hn Hx).
Qed.

Lemma In_lookup {V : Type} (k : string) (v : V) (d : list (string * V)) :
  NoDup (map fst d) -> In (k, v) d -> lookup k d = Some v.
Proof.
  induction d as [|[k' v'] rest IH]; simpl; intros Hd Hin.
  - contradiction.
  - inversion Hd as [|? ? Hnot Hrest]; subst.
    destruct Hin as [E | Hin].
    + inversion E; subst. rewrite String.eqb_refl. reflexivity.
    + destruct (String.eqb_spec k k') as [-> | _].
      * exfalso. apply Hnot. apply in_map_iff. exists (k', v). split; [reflexivity | exact Hin].
      * apply IH; assumption.
Qed.

Lemma lookup_In {V : Type} (k : string) (v : V) (d : list (string * V)) :
  lookup k d = Some v -> In (k, v) d.
Proof.
  induction d as [|[k' v'] rest IH]; simpl; intros H.
  - discriminate.
  - destruct (String.eqb_spec k k') as [-> | _].
    + inversion H; subst. left. reflexivity.
    + right. apply IH. exact H.
Qed.

Lemma get_list_append_to {V : Type} (b k : string) (v : V)
    (d : list (string * list V)) :
  get_list b (append_to k v d) =
  (if String.eqb b k then get_list b d ++ [v] else get_list b d)%list.
Proof.
  unfold get_list at 1. rewrite lookup_append_to.
  destruct (String.eqb b k); reflexivity.
Qed.

Lemma organize_fold (historical_data : list HistoricalPoint)
    (d0 : list (string * list Z)) :
  NoDup (map fst d0) ->
  let step := fun borough_data record =>
                match hd_date record with
                | Some _ =>
                    append_to (hd_borough record) (hd_count record) borough_data
                | None => borough_data
                end in
  NoDup (map fst (fold_left step historical_data d0))
  /\ forall b,
       get_list b (fold_left step historical_data d0) =
       (get_list b d0 ++ observed_counts b historical_data)%list.
Proof.
  intros Hd step. revert d0 Hd.
  induction historical_data as [|record rest IH]; intros d0 Hd.
  - simpl. split; [exact Hd | intros b; rewrite app_nil_r; reflexivity].
  - simpl fold_left.
    assert (Hd' : NoDup (map fst (step d0 record))).
    { unfold step. destruct (hd_date record); [apply keys_append_to|]; exact Hd. }
    destruct (IH _ Hd') as [Hnodup Hget]. split; [exact Hnodup|].
    intros b. rewrite Hget. unfold step, observed_counts. simpl filter.
    destruct (hd_date record) as [date|].
    + rewrite get_list_append_to, (String.eqb_sym (hd_borough record) b).
      destruct (String.eqb b (hd_borough record)); simpl.
      * rewrite <- app_assoc. reflexivity.
      * reflexivity.
    + rewrite andb_false_r. reflexivity.
Qed.

Lemma organize_by_borough_observed (historical_data : list HistoricalPoint)
    (b : string) (counts : list Z) :
  In (b, counts) (organize_by_borough historical_data) ->
  counts = observed_counts b historical_data.
Proof.
  intros Hin.
  destruct (organize_fold historical_data [] (NoDup_nil _)) as [Hnodup Hget].
  fold (organize_by_borough historical_data) in Hnodup, Hget.
  specialize (Hget b). unfold get_list in Hget at 1.
  rewrite (In_lookup _ _ _ Hnodup Hin) in Hget. exact Hget.
Qed.

Lemma observed_in_organize (historical_data : list HistoricalPoint)
    (b : string) :
  observed_counts b historical_data <> [] ->
  In (b, observed_counts b historical_data)
     (organize_by_borough historical_data).
Proof.
  intros Hne.
  destruct (organize_fold historical_data [] (NoDup_nil _)) as [_ Hget].
  fold (organize_by_borough historical_data) in Hget.
  specialize (Hget b). unfold get_list in Hget at 1.
  destruct (lookup b (organize_by_borough historical_data)) as [vs|] eqn:E.
  - apply lookup_In. rewrite E, Hget. reflexivity.
  - simpl in Hget. congruence.
Qed.

Lemma unspecified_borough_false (b : string) :
  unspecified_borough b = false <-> b <> "" /\ upper b <> "UNSPECIFIED".
Proof.
  unfold unspecified_borough.
  rewrite orb_false_iff, !String.eqb_neq. reflexivity.
Qed.

Lemma In_borough_loop (pow_half : Q -> Q) (current_date : datetime)
    (days_ahead : Z) (borough_data : list (string * list Z))
    (r : BoroughPrediction) :
  In r (borough_loop pow_half current_date days_ahead borough_data) <->
  exists b counts,
    In (b, counts) borough_data
    /\ unspecified_borough b = false
    /\ (3 <= len counts)%Z
    /\ r = borough_prediction pow_half current_date days_ahead b counts.
Proof.
  unfold borough_loop. rewrite in_flat_map. split.
  - intros ([b counts] & Hin & Hr).
    destruct (unspecified_borough b) eqn:Hu; [contradiction|].
    destruct (Z.ltb_spec (len counts) 3) as [Hlt | Hge]; [contradiction|].
    destruct Hr as [<- | []].
    exists b, counts. repeat split; assumption.
  - intros (b & counts & Hin & Hu & Hge & ->).
    exists (b, counts). split; [exact Hin|].
    rewrite Hu. destruct (Z.ltb_spec (len counts) 3); [lia|].
    left. reflexivity.
Qed.

Lemma In_borough_forecast (pow_half : Q -> Q) (current_date : datetime)
    (days_ahead : Z) (historical_data : list HistoricalPoint)
    (r : BoroughPrediction) :
  In r (bf_predictions
          (predict_borough_complaints pow_half current_date days_ahead
                                      historical_data)) <->
  exists b,
    b <> "" /\ upper b <> "UNSPECIFIED"
    /\ (3 <= len (observed_counts b historical_data))%Z
    /\ r = borough_prediction pow_half current_date days_ahead b
                              (observed_counts b historical_data).
Proof.
  unfold predict_borough_complaints. cbv zeta. simpl bf_predictions.
  rewrite sort_desc_In, In_borough_loop. split.
  - intros (b & counts & Hin & Hu & Hge & ->).
    apply organize_by_borough_observed in Hin. subst counts.
    apply unspecified_borough_false in Hu. destruct Hu as [Hu1 Hu2].
    exists b. repeat split; assumption.
  - intros (b & Hu1 & Hu2 & Hge & ->).
    exists b, (observed_counts b historical_data).
    split; [|split; [|split]].
    + apply observed_in_organize. intros E. rewrite E in Hge.
      unfold len in Hge. simpl in Hge. lia.
    + apply unspecified_borough_false. split; assumption.
    + exact Hge.
    + reflexivity.
Qed.

(** C10: the borough forecast has no entry for a borough whose name is
    empty or is "UNSPECIFIED" in any letter case, and none for a borough
    with fewer than 3 observed daily data points; those boroughs are
    left out without any record, and every other borough has its
    entry. *)
Theorem borough_guards (pow_half : Q -> Q) (current_date : datetime)
    (days_ahead : Z) (historical_data : list HistoricalPoint) :
  let forecast :=
    predict_borough_complaints pow_half current_date days_ahead
                               historical_data in
  (forall r, In r (bf_predictions forecast) ->
      bp_borough r <> ""
      /\ upper (bp_borough r) <> "UNSPECIFIED"
      /\ (3 <= len (observed_counts (bp_borough r) historical_data))%Z
      /\ bp_data_points r
         = len (observed_counts (bp_borough r) historical_data))
  /\ (forall b,
        b = "" \/ upper b = "UNSPECIFIED"
        \/ (len (observed_counts b historical_data) < 3)%Z ->
        forall r, In r (bf_predictions forecast) -> bp_borough r <> b)
  /\ (forall b,
        b <> "" -> upper b <> "UNSPECIFIED" ->
        (3 <= len (observed_counts b historical_data))%Z ->
        exists r, In r (bf_predictions forecast) /\ bp_borough r = b)
  /\ bf_count forecast = len (bf_predictions forecast).
Proof.
  intros forecast. subst forecast.
  assert (Hin : forall r,
             In r (bf_predictions
                     (predict_borough_complaints pow_half current_date
                        days_ahead historical_data)) ->
             bp_borough r <> ""
             /\ upper (bp_borough r) <> "UNSPECIFIED"
             /\ (3 <= len (observed_counts (bp_borough r) historical_data))%Z
             /\ bp_data_points r
                = len (observed_counts (bp_borough r) historical_data)).
  { intros r Hr. apply In_borough_forecast in Hr.
    destruct Hr as (b & Hu1 & Hu2 & Hge & ->). simpl.
    repeat split; assumption. }
  split; [exact Hin | split; [|split]].
  - intros b Hb r Hr E. destruct (Hin r Hr) as (H1 & H2 & H3 & _).
    rewrite E in H1, H2, H3. destruct Hb as [Hb | [Hb | Hb]];
      [exact (H1 Hb) | exact (H2 Hb) | lia].
  - intros b Hu1 Hu2 Hge.
    exists (borough_prediction pow_half current_date days_ahead b
              (observed_counts b historical_data)).
    split; [|reflexivity].
    apply In_borough_forecast. exists b. repeat split; assumption.
  - reflexivity.
Qed.

Lemma borough_guards_witness :
  let historical_data :=
    [mk_point "BROOKLYN" (Some (mk_datetime 2025 1 13)) 10;
     mk_point "Unspecified" (Some (mk_datetime 2025 1 13)) 4;
     mk_point "BROOKLYN" (Some (mk_datetime 2025 1 14)) 12;
     mk_point "Unspecified" (Some (mk_datetime 2025 1 14)) 6;
     mk_point "QUEENS" (Some (mk_datetime 2025 1 14)) 7;
     mk_point "BROOKLYN" (Some (mk_datetime 2025 1 15)) 14;
     mk_point "Unspecified" (Some (mk_datetime 2025 1 15)) 5] in
  let forecast :=
    predict_borough_complaints sqrt_milli (mk_datetime 2025 1 16) 10
                               historical_data in
  (forall r, In r (bf_predictions forecast) -> bp_borough r <> "Unspecified")
  /\ (forall r, In r (bf_predictions forecast) -> bp_borough r <> "QUEENS")
  /\ (exists r, In r (bf_predictions forecast) /\ bp_borough r = "BROOKLYN").
Proof.
  intros historical_data forecast.
  destruct (borough_guards sqrt_milli (mk_datetime 2025 1 16) 10
              historical_data) as (_ & Hout & Hin & _).
  split; [|split].
  - apply Hout. right. left. reflexivity.
  - apply Hout. right. right. vm_compute. reflexivity.
  - apply Hin; [discriminate | discriminate | vm_compute; discriminate].
Defined.

(** *** Confidence of the four forecasts *)

Lemma py_round1_range (lo hi : Z) (x : Q) :
  inject_Z lo <= x -> x <= inject_Z hi ->
  inject_Z lo <= py_round x 1 /\ py_round x 1 <= inject_Z hi.
Proof.
  intros Hlo Hhi.
  assert (E : forall z, inject_Z (z * 10) / inject_Z (10 ^ Z.of_nat 1)
                        == inject_Z z).
  { intros z. rewrite inject_Z_mult. change (10 ^ Z.of_nat 1)%Z with 10%Z.
    field. }
  destruct (py_round_between (lo * 10) (hi * 10) x 1) as [H1 H2].
  - rewrite E. exact Hlo.
  - rewrite E. exact Hhi.
  - rewrite E in H1, H2. split; assumption.
Qed.

Lemma In_predict_hotspots (current_date : datetime) (days_ahead : Z)
    (historical_patterns : list HotspotPattern) (r : HotspotPrediction) :
  In r (predict_hotspots current_date days_ahead historical_patterns) <->
  exists pattern,
    In pattern historical_patterns
    /\ r = apply_seasonal_weighting (month current_date)
             (hotspot_of_pattern days_ahead pattern).
Proof.
  unfold predict_hotspots. cbv zeta. rewrite sort_desc_In, map_map, in_map_iff.
  split; intros (pattern & H1 & H2); exists pattern; split; auto.
Qed.

Lemma ratio_confidence_range (count denominator : Z) :
  (1 <= count)%Z -> (1 <= denominator)%Z ->
  0 < py_min 100 (true_div count denominator * 100)
  /\ py_min 100 (true_div count denominator * 100) <= 100.
Proof.
  intros Hc Hd. rewrite py_min_Qmin. split; [|apply Q.le_min_l].
  apply Q.min_glb_lt; [reflexivity|].
  unfold true_div.
  assert (H1 : 0 < inject_Z count).
  { change 0 with (inject_Z 0). rewrite <- Zlt_Qlt. lia. }
  assert (H2 : 0 < inject_Z denominator).
  { change 0 with (inject_Z 0). rewrite <- Zlt_Qlt. lia. }
  apply Qmult_lt_0_compat; [|reflexivity].
  apply Qlt_shift_div_l; [exact H2|]. lra.
Qed.

Lemma hotspot_confidence_range (days_active : Z) :
  (1 <= days_active)%Z ->
  0 < py_round (py_min 100 (true_div days_active 13 * 100)) 1
  /\ py_round (py_min 100 (true_div days_active 13 * 100)) 1 <= 100.
Proof.
  intros Hd.
  destruct (py_round1_range 7 100 (py_min 100 (true_div days_active 13 * 100)))
    as [H1 H2].
  - rewrite py_min_Qmin. apply Q.min_glb; [discriminate|].
    unfold true_div.
    assert (H : 1 <= inject_Z days_active).
    { change 1 with (inject_Z 1). rewrite <- Zle_Qle. exact Hd. }
    change (inject_Z 7) with 7.
    assert (E : inject_Z days_active / inject_Z 13 * 100
                == inject_Z days_active * (100 # 13)) by field.
    rewrite E. lra.
  - apply ratio_confidence_range; lia.
  - change (inject_Z 7) with 7 in H1. change (inject_Z 100) with 100 in H2.
    split; [lra | exact H2].
Qed.

Lemma append_to_nonempty {V : Type} (k : string) (v : V)
    (d : list (string * list V)) :
  append_to k v d <> [].
Proof.
  destruct d as [|[k' vs] rest]; simpl; [discriminate|].
  destruct (String.eqb k k'); discriminate.
Qed.

Lemma append_to_values {V : Type} (k : string) (v : V)
    (d : list (string * list V)) :
  Forall (fun kv => snd kv <> []) d ->
  Forall (fun kv => snd kv <> []) (append_to k v d).
Proof.
  induction d as [|[k' vs] rest IH]; simpl; intros Hd.
  - constructor; [discriminate | constructor].
  - inversion Hd as [|? ? Hvs Hrest]; subst.
    destruct (String.eqb k k'); constructor; simpl; auto.
    destruct vs; discriminate.
Qed.

Lemma group_by_waste_type_values (collections : list CollectionDoc) :
  collections <> [] ->
  group_by_waste_type collections <> []
  /\ Forall (fun kv => snd kv <> []) (group_by_waste_type collections).
Proof.
  unfold group_by_waste_type.
  match goal with
  | |- context [fold_left ?f _ _] => set (step := f)
  end.
  assert (Hinv : forall colls d,
             Forall (fun kv => snd kv <> []) d ->
             (d <> [] \/ colls <> []) ->
             fold_left step colls d <> []
             /\ Forall (fun kv => snd kv <> []) (fold_left step colls d)).
  { induction colls as [|coll rest IH]; intros d Hd Hne.
    - simpl. split; [destruct Hne as [H | H]; [exact H | congruence] | exact Hd].
    - simpl. apply IH.
      + unfold step. apply append_to_values. exact Hd.
      + left. unfold step. apply append_to_nonempty. }
  intros Hne. apply Hinv; [constructor | right; exact Hne].
Qed.

Lemma tonnage_loop_samples (days_ahead : Z)
    (daily_totals : list (string * list Q)) :
  snd (tonnage_loop days_ahead daily_totals) =
  fold_right Z.add 0%Z (map (fun kv => len (snd kv)) daily_totals).
Proof.
  unfold tonnage_loop.
  match goal with
  | |- context [fold_left ?f _ _] => set (step := f)
  end.
  assert (Hacc : forall d acc,
             snd (fold_left step d acc) =
             (snd acc
              + fold_right Z.add 0%Z (map (fun kv => len (snd kv)) d))%Z).
  { induction d as [|[waste_type tonnages] rest IH]; intros [[p t] s].
    - simpl. lia.
    - simpl fold_left. rewrite IH. simpl map. simpl fold_right.
      destruct tonnages as [|x xs]; simpl snd; unfold len; simpl List.length; lia. }
  rewrite Hacc. simpl. reflexivity.
Qed.

Lemma samples_positive (daily_totals : list (string * list Q)) :
  daily_totals <> [] ->
  Forall (fun kv => snd kv <> []) daily_totals ->
  (1 <= fold_right Z.add 0%Z (map (fun kv => len (snd kv)) daily_totals))%Z.
Proof.
  intros Hne Hall.
  assert (Hnonneg : forall d : list (string * list Q),
             (0 <= fold_right Z.add 0%Z (map (fun kv => len (snd kv)) d))%Z).
  { induction d as [|kv rest IH]; simpl; [lia | unfold len at 1; lia]. }
  destruct daily_totals as [|[k vs] rest]; [congruence|].
  inversion Hall as [|? ? Hvs _]; subst. simpl in *.
  specialize (Hnonneg rest).
  destruct vs as [|x xs]; [congruence|]. unfold len at 1. simpl List.length. lia.
Qed.

Lemma tf_confidence_eq (zone_id : string) (days_ahead : Z)
    (collections : list CollectionDoc) (forecast : TonnageForecast) :
  predict_tonnage_forecast zone_id days_ahead collections = TonnageOk forecast ->
  collections <> []
  /\ tf_confidence forecast =
     py_min 100
       (true_div
          (snd (tonnage_loop days_ahead (group_by_waste_type collections)))
          (60 * len (group_by_waste_type collections)) * 100).
Proof.
  unfold predict_tonnage_forecast.
  destruct collections as [|coll rest]; [discriminate|].
  destruct (tonnage_loop days_ahead (group_by_waste_type (coll :: rest)))
    as [[predictions total_predicted] total_samples].
  intros E. injection E as <-. split; [discriminate | reflexivity].
Qed.

Lemma tonnage_confidence_range (zone_id : string) (days_ahead : Z)
    (collections : list CollectionDoc) (forecast : TonnageForecast) :
  predict_tonnage_forecast zone_id days_ahead collections = TonnageOk forecast ->
  0 < tf_confidence forecast /\ tf_confidence forecast <= 100.
Proof.
  intros E. destruct (tf_confidence_eq _ _ _ _ E) as [Hne ->].
  destruct (group_by_waste_type_values collections Hne) as [Hd Hall].
  apply ratio_confidence_range.
  - rewrite tonnage_loop_samples. apply samples_positive; assumption.
  - unfold len. destruct (group_by_waste_type collections); [congruence|].
    cbn [List.length]. lia.
Qed.

Lemma In_firstn {A : Type} (n : nat) (xs : list A) (x : A) :
  In x (firstn n xs) -> In x xs.
Proof.
  revert xs. induction n as [|n IH]; intros [|y rest]; simpl; try tauto.
  intros [H | H]; [left; exact H | right; apply IH; exact H].
Qed.

Lemma In_predict_complaint_types (current_date : datetime)
    (target_month days_ahead : Z) (historical_data : list TypeHistory)
    (r : TypePrediction) :
  In r (cf_predictions
          (predict_complaint_types current_date target_month days_ahead
                                   historical_data)) ->
  exists data,
    In data historical_data
    /\ r = type_prediction days_ahead (month current_date) target_month data.
Proof.
  unfold predict_complaint_types. cbv zeta. cbn [cf_predictions].
  intros H. apply In_firstn in H. apply sort_desc_In in H.
  apply in_map_iff in H. destruct H as (data & <- & Hin).
  exists data. split; [exact Hin | reflexivity].
Qed.

(** C1, as stated, fails: a hotspot seen on one weekday has confidence
    7.7, below 30; a request type with 250 requests in the year has
    confidence exactly 100; a zone with a single collection has a
    tonnage confidence below 30. *)
Lemma confidence_outside_30_95 :
  (exists r,
      In r (predict_hotspots (mk_datetime 2025 1 15) 7
              [mk_pattern 40.7 (-74) 3 2 1])
      /\ hs_confidence r == 7.7 /\ hs_confidence r < 30)
  /\ (exists r,
        In r (cf_predictions
                (predict_complaint_types (mk_datetime 2025 1 15) 2 30
                   [mk_type_history "snow" [(1, 50); (12, 30)]%Z 250]))
        /\ tp_confidence r == 100)
  /\ (exists forecast,
        predict_tonnage_forecast "BKN-01" 7
          [mk_collection (Some "residential") (Some 2.5)]
        = TonnageOk forecast
        /\ tf_confidence forecast < 30).
Proof.
  split; [|split].
  - eexists. split; [left; reflexivity|]. split; reflexivity.
  - eexists. split; [left; reflexivity|]. reflexivity.
  - eexists. split; reflexivity.
Qed.

(** C1 (amended): every record of [predict_borough_complaints] has its
    confidence in [30, 95]; the confidence of the records of
    [predict_hotspots], [predict_tonnage_forecast] and
    [predict_complaint_types] is a ratio capped at 100: it lies in
    (0, 100] whenever the counts the store reports are at least 1. *)
Theorem confidence_ranges :
  (forall pow_half current_date days_ahead historical_data r,
      In r (bf_predictions
              (predict_borough_complaints pow_half current_date days_ahead
                                          historical_data)) ->
      30 <= bp_confidence r /\ bp_confidence r <= 95)
  /\ (forall current_date days_ahead historical_patterns r,
        (forall pattern, In pattern historical_patterns ->
                         (1 <= hp_days_active pattern)%Z) ->
        In r (predict_hotspots current_date days_ahead historical_patterns) ->
        0 < hs_confidence r /\ hs_confidence r <= 100)
  /\ (forall zone_id days_ahead collections forecast,
        predict_tonnage_forecast zone_id days_ahead collections
        = TonnageOk forecast ->
        0 < tf_confidence forecast /\ tf_confidence forecast <= 100)
  /\ (forall current_date target_month days_ahead historical_data r,
        (forall data, In data historical_data -> (1 <= th_total data)%Z) ->
        In r (cf_predictions
                (predict_complaint_types current_date target_month days_ahead
                                         historical_data)) ->
        0 < tp_confidence r /\ tp_confidence r <= 100).
Proof.
  split; [|split; [|split]].
  - intros pow_half current_date days_ahead historical_data r Hr.
    apply In_borough_forecast in Hr. destruct Hr as (b & _ & _ & _ & ->).
    cbn [bp_confidence borough_prediction].
    apply (py_round1_range 30 95); apply confidence_range.
  - intros current_date days_ahead historical_patterns r Hall Hr.
    apply In_predict_hotspots in Hr. destruct Hr as (pattern & Hin & ->).
    cbn [hs_confidence apply_seasonal_weighting hotspot_of_pattern].
    apply hotspot_confidence_range. apply Hall. exact Hin.
  - apply tonnage_confidence_range.
  - intros current_date target_month days_ahead historical_data r Hall Hr.
    apply In_predict_complaint_types in Hr. destruct Hr as (data & Hin & ->).
    cbn [tp_confidence type_prediction].
    apply ratio_confidence_range; [apply Hall; exact Hin | lia].
Qed.

Lemma confidence_ranges_witness :
  (30 <= bp_confidence
           (borough_prediction sqrt_milli (mk_datetime 2025 1 16) 10
                               "BROOKLYN" [10; 12; 14]%Z)
   /\ bp_confidence
        (borough_prediction sqrt_milli (mk_datetime 2025 1 16) 10
                            "BROOKLYN" [10; 12; 14]%Z) <= 95)
  /\ (0 < hs_confidence
            (apply_seasonal_weighting 1
               (hotspot_of_pattern 7 (mk_pattern 40.7 (-74) 3 2 1)))
      /\ hs_confidence
           (apply_seasonal_weighting 1
              (hotspot_of_pattern 7 (mk_pattern 40.7 (-74) 3 2 1))) <= 100)
  /\ (0 < tp_confidence
            (type_prediction 30 1 2
               (mk_type_history "snow" [(1, 50); (12, 30)]%Z 250))
      /\ tp_confidence
           (type_prediction 30 1 2
              (mk_type_history "snow" [(1, 50); (12, 30)]%Z 250)) <= 100)
  /\ match predict_tonnage_forecast "BKN-01" 7
             [mk_collection (Some "residential") (Some 2.5)] with
     | TonnageOk forecast =>
         0 < tf_confidence forecast /\ tf_confidence forecast <= 100
     | TonnageError _ _ _ => False
     end.
Proof.
  destruct confidence_ranges as (Hborough & Hhotspot & Htonnage & Htype).
  split; [|split; [|split]];
    [| | | destruct (predict_tonnage_forecast "BKN-01" 7
                       [mk_collection (Some "residential") (Some 2.5)])
             as [zone_id error data_source | forecast] eqn:E;
           [vm_compute in E; discriminate E | apply (Htonnage _ _ _ _ E)]].
  - apply (Hborough sqrt_milli (mk_datetime 2025 1 16) 10%Z
             [mk_point "BROOKLYN" (Some (mk_datetime 2025 1 13)) 10;
              mk_point "BROOKLYN" (Some (mk_datetime 2025 1 14)) 12;
              mk_point "BROOKLYN" (Some (mk_datetime 2025 1 15)) 14]).
    left. reflexivity.
  - apply (Hhotspot (mk_datetime 2025 1 15) 7%Z
             [mk_pattern 40.7 (-74) 3 2 1]).
    + intros pattern [<- | []]. simpl. lia.
    + left. reflexivity.
  - apply (Htype (mk_datetime 2025 1 15) 2%Z 30%Z
             [mk_type_history "snow" [(1, 50); (12, 30)]%Z 250]).
    + intros data [<- | []]. simpl. lia.
    + left. reflexivity.
Defined.

End PredictionFacts.

(** ** Ingestion: further properties *)

Module IngestFacts.

Import PyStr PyStrFacts Classifier ClassifierFacts BulkWrite.
Local Open Scope string_scope.

(** *** Letter case *)








Section SpacePreserving.

Variable f : ascii -> ascii.
Hypothesis f_space : forall c, is_space (f c) = is_space c.




End SpacePreserving.




(** *** Outer whitespace *)

Lemma rstrip_idempotent (s : string) : rstrip (rstrip s) = rstrip s.
Proof.
  induction s as [|c rest IH]; simpl; [reflexivity|].
  destruct (rstrip rest) as [|k kept] eqn:E.
  - destruct (is_space c) eqn:Hc; simpl; [reflexivity|].
    rewrite Hc. reflexivity.
  - change (rstrip (String c (String k kept))) with
      (match rstrip (String k kept) with
       | EmptyString =>
           if is_space c then EmptyString else String c EmptyString
       | kept' => String c kept'
       end).
    rewrite IH. reflexivity.
Qed.

Lemma rstrip_head (c : ascii) (rest : string) :
  is_space c = false ->
  exists kept, rstrip (String c rest) = String c kept.
Proof.
  intros Hc. simpl. destruct (rstrip rest) as [|k kept].
  - rewrite Hc. exists EmptyString. reflexivity.
  - exists (String k kept). reflexivity.
Qed.

Lemma lstrip_head (s : string) :
  lstrip s = EmptyString
  \/ exists c rest, lstrip s = String c rest /\ is_space c = false.
Proof.
  induction s as [|c rest IH]; simpl; [left; reflexivity|].
  destruct (is_space c) eqn:Hc; [exact IH|].
  right. exists c, rest. split; [reflexivity | exact Hc].
Qed.

Lemma strip_idempotent (s : string) : strip (strip s) = strip s.
Proof.
  unfold strip. destruct (lstrip_head s) as [E | (c & rest & E & Hc)];
    rewrite E.
  - reflexivity.
  - destruct (rstrip_head c rest Hc) as (kept & Ek). rewrite Ek.
    cbn [lstrip]. rewrite Hc. rewrite <- Ek. apply rstrip_idempotent.
Qed.

(** X2: white space around the complaint type is ignored by the
    category and by the priority. *)
Theorem classify_ignores_outer_whitespace (complaint_type descriptor : string)
    (c : ComplaintCategory) :
  classify (strip complaint_type) descriptor
  = classify complaint_type descriptor
  /\ infer_priority c (strip complaint_type) descriptor
     = infer_priority c complaint_type descriptor.
Proof.
  unfold classify, infer_priority, combined_text_of, complaint_lower_of.
  rewrite strip_idempotent. split; reflexivity.
Qed.

(** *** The categories and the keyword lists *)

(** X3: every one of the twenty categories is the category of some
    record. *)
Theorem every_category_reachable (c : ComplaintCategory) :
  exists complaint_type descriptor, classify complaint_type descriptor = c.
Proof.
  destruct c;
    [ exists "", "illegal dumping"
    | exists "Missed Collection", ""
    | exists "", "overflowing dumpster"
    | exists "", "rodent"
    | exists "Dirty Conditions", ""
    | exists "", "trash"
    | exists "", "litter basket"
    | exists "", "damaged container"
    | exists "", "vendor"
    | exists "", "blocked"
    | exists "Graffiti", ""
    | exists "Unsanitary Pigeon Condition", ""
    | exists "Air Quality", ""
    | exists "Sewer", ""
    | exists "Hazardous Materials", ""
    | exists "Street Sweeping Complaint", ""
    | exists "Mosquitoes", ""
    | exists "Mold", ""
    | exists "Snow", ""
    | exists "", "" ];
    vm_compute; reflexivity.
Qed.

Lemma append_assoc (a b c : string) : (a ++ b) ++ c = a ++ (b ++ c).
Proof.
  induction a as [|x rest IH]; simpl; [reflexivity | rewrite IH; reflexivity].
Qed.

Lemma prefix_iff (w s : string) :
  prefix w s = true <-> exists post, s = w ++ post.
Proof.
  revert s. induction w as [|a w' IH]; intros s.
  - destruct s; simpl; split; eauto.
  - destruct s as [|b s']; simpl.
    + split; [discriminate | intros [post H]; discriminate H].
    + destruct (ascii_dec a b) as [-> | Hab].
      * rewrite IH. split; intros [post H]; exists post.
        -- rewrite H. reflexivity.
        -- inversion H. reflexivity.
      * split; [discriminate|]. intros [post H]. inversion H as [[Hb Hs]].
        exfalso. apply Hab. symmetry. exact Hb.
Qed.

Lemma contains_unfold (w s : string) :
  contains w s =
  prefix w s
  || match s with
     | EmptyString => false
     | String _ rest => contains w rest
     end.
Proof.
  destruct s; reflexivity.
Qed.

(** [contains] is the substring relation. *)
Lemma contains_iff (w s : string) :
  contains w s = true <-> exists pre post, s = pre ++ w ++ post.
Proof.
  split.
  - induction s as [|c rest IH]; rewrite contains_unfold, orb_true_iff;
      intros [H | H].
    + apply prefix_iff in H. destruct H as [post H].
      exists "", post. exact H.
    + discriminate.
    + apply prefix_iff in H. destruct H as [post H].
      exists "", post. exact H.
    + destruct (IH H) as (pre & post & E).
      exists (String c pre), post. rewrite E. reflexivity.
  - intros (pre & post & E). subst s.
    induction pre as [|c pre' IH]; rewrite contains_unfold.
    + apply orb_true_iff. left. apply prefix_iff. exists post. reflexivity.
    + cbn [append]. rewrite IH. apply orb_true_r.
Qed.

(** A text that holds a keyword holds every substring of the keyword. *)
Lemma contains_trans (a b s : string) :
  contains a b = true -> contains b s = true -> contains a s = true.
Proof.
  rewrite !contains_iff.
  intros (p1 & q1 & ->) (p2 & q2 & ->).
  exists (p2 ++ p1), (q1 ++ q2).
  rewrite !append_assoc. reflexivity.
Qed.

(** Dropping from a disjunction a keyword that holds another one. *)
Lemma orb_absorb (a b : bool) : (b = true -> a = true) -> a || b = a.
Proof.
  destruct a, b; intros H; try reflexivity. symmetry. apply H. reflexivity.
Qed.

Ltac absorb_keyword :=
  intros Hkw; eapply contains_trans; [|exact Hkw]; vm_compute; reflexivity.


Ltac reduce_keywords text :=
  unfold any_in; cbn [existsb];
  repeat match goal with
         | |- context [contains ?w text] =>
             let E := fresh "E" in destruct (contains w text) eqn:E
         end;
  try reflexivity; exfalso;
  repeat match goal with
         | H : true = true -> _ |- _ => specialize (H eq_refl)
         end;
  congruence.

(** X4: keywords that hold another keyword of the same rule never
    change its outcome: "missed collection (all materials)" beside
    "missed collection", and in the generic lists every phrase that
    holds "dumping", "overflow", "rodent", "rat", "unsanitary", "waste",
    "litter", "basket", "vendor" or "blocked".  Each rule matches
    exactly when its shorter list matches. *)
Theorem redundant_keywords (text : string) :
  contains "missed collection" text
  || contains "missed collection (all materials)" text
  = contains "missed collection" text
  /\ any_in ["illegal dumping"; "dumping"; "illegal dump"; "dumped";
             "chronic dumping"] text
     = any_in ["dumping"; "illegal dump"; "dumped"] text
  /\ any_in ["overflow"; "overflowing"; "over flowing"; "bin full";
             "container full"; "overflowing dumpster"; "overflowing basket"]
            text
     = any_in ["overflow"; "over flowing"; "bin full"; "container full"] text
  /\ any_in ["rodent"; "rat"; "rats"; "mouse"; "mice"; "rodent activity";
             "rodent sighting"] text
     = any_in ["rodent"; "rat"; "mouse"; "mice"] text
  /\ any_in ["dirty condition"; "sanitation condition"; "unsanitary";
             "dirty area"; "filthy"; "unsanitary condition"] text
     = any_in ["dirty condition"; "sanitation condition"; "unsanitary";
               "dirty area"; "filthy"] text
  /\ any_in ["trash"; "garbage"; "refuse"; "waste"; "debris"; "rubbish";
             "solid waste"; "not secure"; "not separated"] text
     = any_in ["trash"; "garbage"; "refuse"; "waste"; "debris"; "rubbish";
               "not secure"; "not separated"] text
  /\ any_in ["litter basket"; "litter"; "basket"; "litter bin";
             "street basket"; "replacement basket"; "new basket"] text
     = any_in ["litter"; "basket"] text
  /\ any_in ["vendor"; "enforcement"; "street vendor"; "vendor violation";
             "food vendor"; "non-food vendor"] text
     = any_in ["vendor"; "enforcement"] text
  /\ any_in ["obstruction"; "blocking"; "blocked"; "obstructing";
             "access blocked"] text
     = any_in ["obstruction"; "blocking"; "blocked"; "obstructing"] text.
Proof.
  assert (H01 : contains "missed collection (all materials)" text = true ->
                contains "missed collection" text = true) by absorb_keyword.
  assert (H02 : contains "illegal dumping" text = true ->
                contains "dumping" text = true) by absorb_keyword.
  assert (H03 : contains "chronic dumping" text = true ->
                contains "dumping" text = true) by absorb_keyword.
  assert (H04 : contains "overflowing" text = true ->
                contains "overflow" text = true) by absorb_keyword.
  assert (H05 : contains "overflowing dumpster" text = true ->
                contains "overflow" text = true) by absorb_keyword.
  assert (H06 : contains "overflowing basket" text = true ->
                contains "overflow" text = true) by absorb_keyword.
  assert (H07 : contains "rats" text = true ->
                contains "rat" text = true) by absorb_keyword.
  assert (H08 : contains "rodent activity" text = true ->
                contains "rodent" text = true) by absorb_keyword.
  assert (H09 : contains "rodent sighting" text = true ->
                contains "rodent" text = true) by absorb_keyword.
  assert (H10 : contains "unsanitary condition" text = true ->
                contains "unsanitary" text = true) by absorb_keyword.
  assert (H11 : contains "solid waste" text = true ->
                contains "waste" text = true) by absorb_keyword.
  assert (H12 : contains "litter basket" text = true ->
                contains "litter" text = true) by absorb_keyword.
  assert (H13 : contains "litter bin" text = true ->
                contains "litter" text = true) by absorb_keyword.
  assert (H14 : contains "street basket" text = true ->
                contains "basket" text = true) by absorb_keyword.
  assert (H15 : contains "replacement basket" text = true ->
                contains "basket" text = true) by absorb_keyword.
  assert (H16 : contains "new basket" text = true ->
                contains "basket" text = true) by absorb_keyword.
  assert (H17 : contains "street vendor" text = true ->
                contains "vendor" text = true) by absorb_keyword.
  assert (H18 : contains "vendor violation" text = true ->
                contains "vendor" text = true) by absorb_keyword.
  assert (H19 : contains "food vendor" text = true ->
                contains "vendor" text = true) by absorb_keyword.
  assert (H20 : contains "non-food vendor" text = true ->
                contains "vendor" text = true) by absorb_keyword.
  assert (H21 : contains "access blocked" text = true ->
                contains "blocked" text = true) by absorb_keyword.
  split; [apply orb_absorb; exact H01|].
  split; [clear - H02 H03; reduce_keywords text|].
  split; [clear - H04 H05 H06; reduce_keywords text|].
  split; [clear - H07 H08 H09; reduce_keywords text|].
  split; [clear - H10; reduce_keywords text|].
  split; [clear - H11; reduce_keywords text|].
  split; [clear - H12 H13 H14 H15 H16; reduce_keywords text|].
  split; [clear - H17 H18 H19 H20; reduce_keywords text|].
  clear - H21; reduce_keywords text.
Qed.

(** X5: the last rule of the chain (street condition or sidewalk
    together with trash, garbage, debris or litter) never decides a
    category: when the trash rule and the litter-basket rule have both
    failed, its condition is false. *)
Theorem street_condition_rule_never_decides (text : string) :
  any_in ["trash"; "garbage"; "refuse"; "waste"; "debris"; "rubbish";
          "solid waste"; "not secure"; "not separated"] text = false ->
  any_in ["litter basket"; "litter"; "basket"; "litter bin"; "street basket";
          "replacement basket"; "new basket"] text = false ->
  any_in ["street condition"; "sidewalk"] text
  && any_in ["trash"; "garbage"; "debris"; "litter"] text = false.
Proof.
  unfold any_in. cbn [existsb]. intros Htrash Hlitter.
  repeat match type of Htrash with
         | _ || _ = false =>
             apply orb_false_iff in Htrash;
             let H := fresh "Ht" in destruct Htrash as [H Htrash]
         end.
  repeat match type of Hlitter with
         | _ || _ = false =>
             apply orb_false_iff in Hlitter;
             let H := fresh "Hl" in destruct Hlitter as [H Hlitter]
         end.
  rewrite Ht, Ht0, Ht3, Hl0. cbn. apply andb_false_r.
Qed.

Lemma street_condition_rule_never_decides_witness :
  any_in ["street condition"; "sidewalk"] "cracked sidewalk slab"
  && any_in ["trash"; "garbage"; "debris"; "litter"] "cracked sidewalk slab"
  = false.
Proof.
  apply street_condition_rule_never_decides; vm_compute; reflexivity.
Defined.

(** *** The bulk write *)

Lemma slice_width {A : Type} (i step : nat) (xs : list A) :
  slice i (i + step) xs = firstn step (skipn i xs).
Proof.
  unfold slice. f_equal. lia.
Qed.

Lemma range_from_below (fuel start stop step i : nat) :
  In i (range_from fuel start stop step) -> (i < stop)%nat.
Proof.
  revert start. induction fuel as [|fuel IH]; intros start; simpl.
  - contradiction.
  - destruct (Nat.ltb_spec start stop) as [Hlt | Hge]; [|contradiction].
    intros [<- | H]; [exact Hlt | exact (IH _ H)].
Qed.

Lemma range_from_concat {A : Type} (xs : list A) (step fuel start : nat) :
  (0 < step)%nat ->
  (List.length xs - start <= fuel)%nat ->
  List.concat (map (fun i => slice i (i + step) xs)
              (range_from fuel start (List.length xs) step))
  = skipn start xs.
Proof.
  intros Hstep. revert start.
  induction fuel as [|fuel IH]; intros start Hfuel; simpl.
  - symmetry. apply skipn_all2. lia.
  - destruct (Nat.ltb_spec start (List.length xs)) as [Hlt | Hge].
    + cbn [map List.concat]. rewrite IH by lia.
      rewrite slice_width, Nat.add_comm, <- skipn_skipn.
      apply firstn_skipn.
    + symmetry. apply skipn_all2. exact Hge.
Qed.

Lemma range_from_length (stop step fuel start : nat) :
  (0 < step)%nat ->
  (stop - start <= fuel)%nat ->
  List.length (range_from fuel start stop step)
  = ((stop - start + step - 1) / step)%nat.
Proof.
  intros Hstep. revert start.
  induction fuel as [|fuel IH]; intros start Hfuel; simpl.
  - symmetry. apply Nat.div_small. lia.
  - destruct (Nat.ltb_spec start stop) as [Hlt | Hge].
    + cbn [List.length]. rewrite IH by lia.
      replace (stop - start + step - 1)%nat
        with ((stop - start - 1) + 1 * step)%nat by lia.
      rewrite Nat.div_add by lia.
      destruct (Nat.le_gt_cases step (stop - start)) as [Hbig | Hsmall].
      * replace (stop - (start + step) + step - 1)%nat
          with (stop - start - 1)%nat by lia.
        lia.
      * replace (stop - (start + step) + step - 1)%nat
          with (step - 1)%nat by lia.
        rewrite (Nat.div_small (step - 1)) by lia.
        rewrite (Nat.div_small (stop - start - 1)) by lia.
        reflexivity.
    + symmetry. apply Nat.div_small. lia.
Qed.

(** X6: the batches of the bulk write partition the requests: put
    end to end they are the list of requests, each has between 1 and 500
    requests, and their number is [total_batches]. *)
Theorem batches_partition {A : Type} (requests : list A) :
  List.concat (batches requests) = requests
  /\ Forall (fun batch => (1 <= List.length batch <= batch_size)%nat)
            (batches requests)
  /\ List.length (batches requests) = total_batches requests.
Proof.
  unfold batches, range_step, total_batches.
  assert (Hstep : (0 < batch_size)%nat) by (unfold batch_size; lia).
  split; [|split].
  - rewrite range_from_concat by lia. reflexivity.
  - apply Forall_forall. intros batch Hin.
    apply in_map_iff in Hin. destruct Hin as (i & <- & Hi).
    apply range_from_below in Hi.
    rewrite slice_width, length_firstn, length_skipn. lia.
  - rewrite length_map, range_from_length by lia.
    f_equal. lia.
Qed.

End IngestFacts.

(** ** Forecasts: further properties *)

Module ForecastFacts.

Import PyStr PyNum PyNumFacts Classifier Predictions Spec PredictionFacts.
Local Open Scope string_scope.
Local Open Scope Z_scope.
Local Open Scope Q_scope.

(** *** Order of the forecasts *)

Section SortDesc.

Context {A : Type} (key : A -> Z).

(** In a descending list [a] may stand before [b] when
    [key b <= key a]. *)

Lemma insert_desc_sorted (x : A) (xs : list A) :
  StronglySorted (fun a b => (key b <= key a)%Z) xs -> StronglySorted (fun a b => (key b <= key a)%Z) (insert_desc key x xs).
Proof.
  induction xs as [|y rest IH]; intros Hs; simpl.
  - repeat constructor.
  - inversion Hs as [|? ? Hrest Hall]; subst.
    destruct (Z.ltb_spec (key x) (key y)) as [Hlt | Hge].
    + constructor; [apply IH; exact Hrest|].
      apply (Permutation_Forall (Permutation_sym (insert_desc_perm key x rest))).
      constructor; [lia | exact Hall].
    + constructor; [exact Hs|]. constructor; [exact Hge|].
      apply Forall_forall. intros z Hz.
      rewrite Forall_forall in Hall. specialize (Hall z Hz).
      cbv beta in *. lia.
Qed.

Lemma sort_desc_sorted (xs : list A) :
  StronglySorted (fun a b => (key b <= key a)%Z) (sort_desc key xs).
Proof.
  induction xs as [|x rest IH]; simpl; [constructor|].
  apply insert_desc_sorted, IH.
Qed.

Lemma insert_desc_filter (k : Z) (x : A) (xs : list A) :
  filter (fun a => (key a =? k)%Z) (insert_desc key x xs)
  = filter (fun a => (key a =? k)%Z) (x :: xs).
Proof.
  induction xs as [|y rest IH]; [reflexivity|].
  cbn [insert_desc].
  destruct (Z.ltb_spec (key x) (key y)) as [Hlt | Hge]; [|reflexivity].
  cbn [filter] in *. rewrite IH.
  destruct (Z.eqb_spec (key x) k), (Z.eqb_spec (key y) k);
    try reflexivity; lia.
Qed.

Lemma sort_desc_filter (k : Z) (xs : list A) :
  filter (fun a => (key a =? k)%Z) (sort_desc key xs)
  = filter (fun a => (key a =? k)%Z) xs.
Proof.
  induction xs as [|x rest IH]; [reflexivity|].
  cbn [sort_desc fold_right]. fold (sort_desc key rest).
  rewrite insert_desc_filter. cbn [filter]. rewrite IH. reflexivity.
Qed.

Lemma sorted_firstn (n : nat) (xs : list A) :
  StronglySorted (fun a b => (key b <= key a)%Z) xs -> StronglySorted (fun a b => (key b <= key a)%Z) (firstn n xs).
Proof.
  revert xs. induction n as [|n IH]; intros [|x rest] Hs; simpl;
    try constructor.
  - inversion Hs; subst. apply IH. assumption.
  - inversion Hs as [|? ? _ Hall]; subst.
    rewrite Forall_forall in *. intros z Hz. apply Hall.
    apply (In_firstn n). exact Hz.
Qed.

Lemma sorted_split (n : nat) (xs : list A) (a b : A) :
  StronglySorted (fun a b => (key b <= key a)%Z) xs ->
  In a (firstn n xs) -> In b (skipn n xs) -> (key b <= key a)%Z.
Proof.
  revert xs. induction n as [|n IH]; intros [|x rest] Hs Ha Hb; simpl in *;
    try contradiction.
  inversion Hs as [|? ? Hrest Hall]; subst.
  destruct Ha as [<- | Ha].
  - rewrite Forall_forall in Hall. apply Hall.
    rewrite <- (firstn_skipn n rest). apply in_or_app. right. exact Hb.
  - exact (IH rest Hrest Ha Hb).
Qed.

End SortDesc.

(** X7: the lists of hotspots, risk zones, complaint-type predictions
    and borough predictions are in descending order of their predicted
    requests, risk score, predicted count and predicted complaints. *)
Theorem forecasts_sorted_descending :
  (forall current_date days_ahead historical_patterns,
      StronglySorted
        (fun a b => (hs_predicted_requests b <= hs_predicted_requests a)%Z)
        (predict_hotspots current_date days_ahead historical_patterns))
  /\ (forall overflow_data,
        StronglySorted (fun a b => (rz_risk_score b <= rz_risk_score a)%Z)
                       (predict_overflow_risk overflow_data))
  /\ (forall current_date target_month days_ahead historical_data,
        StronglySorted
          (fun a b => (tp_predicted_count b <= tp_predicted_count a)%Z)
          (cf_predictions
             (predict_complaint_types current_date target_month days_ahead
                                      historical_data)))
  /\ (forall pow_half current_date days_ahead historical_data,
        StronglySorted
          (fun a b =>
             (bp_predicted_complaints b <= bp_predicted_complaints a)%Z)
          (bf_predictions
             (predict_borough_complaints pow_half current_date days_ahead
                                         historical_data))).
Proof.
  split; [|split; [|split]]; intros.
  - apply sort_desc_sorted.
  - apply sort_desc_sorted.
  - apply sorted_firstn, sort_desc_sorted.
  - apply sort_desc_sorted.
Qed.

(** X8: sorting is stable: risk zones with the same score, and borough
    predictions with the same predicted complaints, keep the order in
    which they were computed. *)
Theorem forecasts_keep_ties_in_order :
  (forall overflow_data score,
      filter (fun r => (rz_risk_score r =? score)%Z)
             (predict_overflow_risk overflow_data)
      = filter (fun r => (rz_risk_score r =? score)%Z)
               (map risk_zone_of overflow_data))
  /\ (forall pow_half current_date days_ahead historical_data total,
        filter (fun r => (bp_predicted_complaints r =? total)%Z)
               (bf_predictions
                  (predict_borough_complaints pow_half current_date days_ahead
                                              historical_data))
        = filter (fun r => (bp_predicted_complaints r =? total)%Z)
                 (borough_loop pow_half current_date days_ahead
                               (organize_by_borough historical_data))).
Proof.
  split; intros.
  - apply sort_desc_filter.
  - apply sort_desc_filter.
Qed.

(** X9: the complaint-type forecast returns min(15, number of types)
    predictions, each the prediction of a type of the input, and no
    prediction left out has a larger predicted count than one that is
    returned. *)
Theorem complaint_types_top_15 (current_date : datetime)
    (target_month days_ahead : Z) (historical_data : list TypeHistory) :
  let returned :=
    cf_predictions
      (predict_complaint_types current_date target_month days_ahead
                               historical_data) in
  let all :=
    map (type_prediction days_ahead (month current_date) target_month)
        historical_data in
  List.length returned = Nat.min 15 (List.length historical_data)
  /\ (forall r, In r returned -> In r all)
  /\ (forall r q,
        In r returned -> In q all -> ~ In q returned ->
        (tp_predicted_count q <= tp_predicted_count r)%Z).
Proof.
  intros returned all. subst returned all.
  unfold predict_complaint_types. cbv zeta. cbn [cf_predictions].
  set (all := map (type_prediction days_ahead (month current_date) target_month)
                  historical_data).
  set (sorted := sort_desc tp_predicted_count all).
  split; [|split].
  - rewrite length_firstn. unfold sorted.
    rewrite (Permutation_length (sort_desc_perm tp_predicted_count all)).
    unfold all. rewrite length_map. reflexivity.
  - intros r Hr. apply In_firstn in Hr. apply sort_desc_In in Hr. exact Hr.
  - intros r q Hr Hq Hnot.
    apply (sorted_split tp_predicted_count 15 sorted r q).
    + apply sort_desc_sorted.
    + exact Hr.
    + apply (sort_desc_In tp_predicted_count) in Hq. fold sorted in Hq.
      rewrite <- (firstn_skipn 15 sorted) in Hq.
      apply in_app_or in Hq. destruct Hq as [Hq | Hq];
        [contradiction | exact Hq].
Qed.

Lemma complaint_types_top_15_witness :
  (tp_predicted_count
     (type_prediction 30 5 6 (mk_type_history "overflow" [] 100))
   <= tp_predicted_count
        (type_prediction 30 5 6 (mk_type_history "overflow" [] 1600)))%Z.
Proof.
  destruct (complaint_types_top_15 (mk_datetime 2025 5 1) 6 30
              (map (fun n => mk_type_history "overflow" [] (Z.of_nat n * 100))
                   (seq 1 16)))
    as (_ & _ & Htop).
  apply Htop.
  - vm_compute. left. reflexivity.
  - left. reflexivity.
  - vm_compute. intuition discriminate.
Defined.

(** *** The regression *)

Lemma fold_right_add_app (xs ys : list Z) :
  fold_right Z.add 0%Z (xs ++ ys)
  = (fold_right Z.add 0%Z xs + fold_right Z.add 0%Z ys)%Z.
Proof.
  induction xs as [|x rest IH]; simpl; [reflexivity | rewrite IH; lia].
Qed.

Lemma range_succ (n : nat) : range (S n) = (range n ++ [Z.of_nat n])%list.
Proof.
  unfold range. rewrite seq_S, map_app. reflexivity.
Qed.

(** Twice the sum of 0 .. n-1 and six times the sum of their squares. *)
Lemma sum_range (n : nat) :
  (2 * sumz (range n) = Z.of_nat n * (Z.of_nat n - 1))%Z.
Proof.
  rewrite sumz_fold_right. induction n as [|n IH].
  - reflexivity.
  - rewrite range_succ, fold_right_add_app. cbn [fold_right]. lia.
Qed.

Lemma sum_squares_range (n : nat) :
  (6 * sumz (map (fun x => x * x) (range n))
   = (Z.of_nat n - 1) * Z.of_nat n * (2 * Z.of_nat n - 1))%Z.
Proof.
  rewrite sumz_fold_right. induction n as [|n IH].
  - reflexivity.
  - rewrite range_succ, map_app, fold_right_add_app. cbn [map fold_right].
    lia.
Qed.

Lemma denominator_closed_form (n : nat) :
  (12 * (Z.of_nat n * sumz (map (fun x => x * x) (range n))
         - sumz (range n) * sumz (range n))
   = Z.of_nat n * Z.of_nat n * (Z.of_nat n * Z.of_nat n - 1))%Z.
Proof.
  pose proof (sum_range n) as H1. pose proof (sum_squares_range n) as H2.
  set (a := sumz (range n)) in *.
  set (b := sumz (map (fun x => (x * x)%Z) (range n))) in *.
  set (k := Z.of_nat n) in *.
  replace (12 * (k * b - a * a))%Z
    with (2 * k * (6 * b) - 3 * ((2 * a) * (2 * a)))%Z by ring.
  rewrite H1, H2. ring.
Qed.

Lemma regression_slope_quotient (trend_counts : list Z) :
  (1 < len trend_counts)%Z ->
  let n := len trend_counts in
  let x_values := range (List.length trend_counts) in
  let sum_x := sumz x_values in
  let sum_x2 := sumz (map (fun x => (x * x)%Z) x_values) in
  let denominator := (n * sum_x2 - sum_x * sum_x)%Z in
  (0 < denominator)%Z
  /\ regression_slope trend_counts
     == true_div
          (n * sumz (map (fun '(x, y) => (x * y)%Z)
                         (combine x_values trend_counts))
           - sum_x * sumz trend_counts)
          denominator.
Proof.
  intros Hn n x_values sum_x sum_x2 denominator.
  assert (Hform : (12 * denominator = n * n * (n * n - 1))%Z).
  { subst denominator sum_x sum_x2 x_values n. unfold len.
    apply denominator_closed_form. }
  assert (Hpos : (0 < denominator)%Z) by (subst n; nia).
  split; [exact Hpos |].
  unfold regression_slope. fold n.
  destruct (Z.ltb_spec 1 n) as [_ | Hle]; [|lia].
  cbv zeta. fold x_values. fold sum_x. fold sum_x2. fold denominator.
  destruct (Z.eqb_spec denominator 0) as [E | _]; [lia|].
  reflexivity.
Qed.

(** X10: for a window of n >= 2 points the regression denominator
    [n*Sum(x^2) - (Sum x)^2] is n^2 (n^2 - 1) / 12, hence positive: the
    zero-denominator branch is never taken and the slope is the
    quotient. *)
Theorem regression_denominator_positive (trend_counts : list Z) :
  (1 < len trend_counts)%Z ->
  let n := len trend_counts in
  let x_values := range (List.length trend_counts) in
  let sum_x := sumz x_values in
  let sum_x2 := sumz (map (fun x => (x * x)%Z) x_values) in
  let denominator := (n * sum_x2 - sum_x * sum_x)%Z in
  (12 * denominator = n * n * (n * n - 1))%Z
  /\ (0 < denominator)%Z
  /\ regression_slope trend_counts
     == true_div
          (n * sumz (map (fun '(x, y) => (x * y)%Z)
                         (combine x_values trend_counts))
           - sum_x * sumz trend_counts)
          denominator.
Proof.
  intros Hn n x_values sum_x sum_x2 denominator.
  split; [|exact (regression_slope_quotient trend_counts Hn)].
  subst denominator sum_x sum_x2 x_values n. unfold len.
  apply denominator_closed_form.
Qed.

Lemma regression_denominator_positive_witness :
  regression_slope [3; 5; 4]%Z == 1 # 2.
Proof.
  destruct (regression_denominator_positive [3; 5; 4]%Z) as (_ & _ & H).
  - vm_compute. reflexivity.
  - rewrite H. vm_compute. reflexivity.
Defined.

Lemma sum_linear (a b : Z) (xs : list Z) :
  sumz (map (fun x => (a + b * x)%Z) xs)
  = (len xs * a + b * sumz xs)%Z.
Proof.
  rewrite !sumz_fold_right. unfold len.
  induction xs as [|x rest IH]; [simpl; lia|].
  cbn [map fold_right List.length]. rewrite IH. lia.
Qed.

Lemma sum_products_linear (a b : Z) (xs : list Z) :
  sumz (map (fun '(x, y) => (x * y)%Z)
            (combine xs (map (fun x => (a + b * x)%Z) xs)))
  = (a * sumz xs + b * sumz (map (fun x => (x * x)%Z) xs))%Z.
Proof.
  rewrite !sumz_fold_right.
  induction xs as [|x rest IH]; [simpl; lia|].
  cbn [map combine fold_right]. rewrite IH. lia.
Qed.

Lemma regression_slope_linear (a b : Z) (n : nat) :
  (2 <= n)%nat ->
  regression_slope (map (fun x => (a + b * x)%Z) (range n)) == inject_Z b.
Proof.
  intros Hn.
  set (ys := map (fun x => (a + b * x)%Z) (range n)).
  assert (Hlen : List.length ys = n).
  { unfold ys. rewrite length_map. apply length_range. }
  assert (Hlong : (1 < len ys)%Z) by (unfold len; lia).
  destruct (regression_slope_quotient ys Hlong) as [Hpos ->].
  rewrite Hlen in *.
  assert (Hk : len ys = Z.of_nat n) by (unfold len; rewrite Hlen; reflexivity).
  rewrite Hk in *. clear Hk Hlong Hlen. subst ys.
  rewrite sum_products_linear, sum_linear.
  unfold len. rewrite length_range.
  set (k := Z.of_nat n) in *.
  set (sx := sumz (range n)) in *.
  set (sx2 := sumz (map (fun x => (x * x)%Z) (range n))) in *.
  replace (k * (a * sx + b * sx2) - sx * (k * a + b * sx))%Z
    with (b * (k * sx2 - sx * sx))%Z by ring.
  unfold true_div. rewrite inject_Z_mult. field.
  change 0 with (inject_Z 0). rewrite inject_Z_injective. lia.
Qed.

Lemma range_skipn (m n : nat) :
  skipn m (range n) = map (fun x => x + Z.of_nat m)%Z (range (n - m)).
Proof.
  unfold range. rewrite skipn_map, skipn_seq, map_map. cbn [Nat.add].
  generalize (n - m)%nat as k. intros k.
  induction k as [|k IH]; [reflexivity|].
  rewrite !seq_S, !map_app, IH. cbn [map]. do 2 f_equal. lia.
Qed.

(** X11: a series of at least two daily counts that starts at [a] and
    changes by [b] every day has trend slope exactly [b], whatever its
    length. *)
Theorem slope_of_linear_series (a b : Z) (n : nat) :
  (2 <= n)%nat ->
  trend_slope (map (fun day => (a + b * day)%Z) (range n)) == inject_Z b.
Proof.
  intros Hn. unfold trend_slope. cbv zeta. change 60%Z with (Z.of_nat 60).
  rewrite slice_last_min by lia. rewrite last_n_skipn.
  rewrite length_map, length_range, skipn_map, range_skipn, map_map.
  set (k := Nat.min 60 n).
  rewrite (map_ext _ (fun x => (a + b * Z.of_nat (n - k)) + b * x)%Z)
    by (intros x; ring).
  apply regression_slope_linear. lia.
Qed.

Lemma slope_of_linear_series_witness :
  trend_slope [7; 10; 13; 16]%Z == 3.
Proof.
  apply (slope_of_linear_series 7 3 4). lia.
Defined.

(** *** Bounds of the borough prediction *)

(** X12: for a non-negative recent average the predicted daily rate is
    at least half of it, so the floor at 10% of the recent average never
    binds and the rate is the recent average plus the capped trend
    adjustment; with a non-negative slope and horizon it is at least the
    recent average; the predicted total is at least the truncated half
    rate times the horizon. *)
Theorem predicted_daily_at_least_half (recent_avg slope : Q) (days_ahead : Z) :
  0 <= recent_avg ->
  recent_avg * 0.5 <= predicted_daily recent_avg slope days_ahead
  /\ predicted_daily recent_avg slope days_ahead
     == recent_avg + Qmax (- recent_avg * 0.5) (slope * true_div days_ahead 2)
  /\ (0 <= slope -> (0 <= days_ahead)%Z ->
      recent_avg <= predicted_daily recent_avg slope days_ahead)
  /\ (py_int (recent_avg * 0.5 * inject_Z days_ahead)
      <= predicted_total recent_avg slope days_ahead)%Z.
Proof.
  intros Hr. unfold predicted_total, predicted_daily. cbv zeta.
  rewrite py_maxz_max.
  set (adjustment := py_max (- recent_avg * 0.5) (slope * true_div days_ahead 2)).
  assert (Hadj : - recent_avg * 0.5 <= adjustment)
    by apply py_max_bounds.
  assert (Hfloor :
            py_max (recent_avg * 0.1) (recent_avg + adjustment)
            == recent_avg + adjustment).
  { rewrite py_max_Qmax. apply Q.max_r. lra. }
  split; [rewrite Hfloor; lra|].
  split; [rewrite Hfloor; unfold adjustment; rewrite py_max_Qmax; reflexivity|].
  split.
  - intros Hs Hd. rewrite Hfloor.
    assert (Hnn : 0 <= slope * true_div days_ahead 2).
    { apply Qmult_le_0_compat; [exact Hs|]. unfold true_div.
      apply Qle_shift_div_l; [reflexivity|].
      rewrite Qmult_0_l. change 0 with (inject_Z 0). rewrite <- Zle_Qle.
      exact Hd. }
    assert (H2 : slope * true_div days_ahead 2 <= adjustment)
      by apply py_max_bounds.
    lra.
  - destruct (Z.le_gt_cases 0 days_ahead) as [Hd | Hd].
    + assert (HdQ : 0 <= inject_Z days_ahead).
      { change 0 with (inject_Z 0). rewrite <- Zle_Qle. exact Hd. }
      assert (Hle : recent_avg * 0.5 * inject_Z days_ahead
                    <= py_max (recent_avg * 0.1) (recent_avg + adjustment)
                       * inject_Z days_ahead).
      { apply Qmult_le_compat_r; [rewrite Hfloor; lra | exact HdQ]. }
      assert (Hnn : 0 <= recent_avg * 0.5 * inject_Z days_ahead).
      { apply Qmult_le_0_compat; [lra | exact HdQ]. }
      rewrite (py_int_floor _ Hnn).
      rewrite (py_int_floor _ (Qle_trans _ _ _ Hnn Hle)).
      apply Qfloor_resp_le in Hle. lia.
    + assert (HdQ : inject_Z days_ahead <= 0).
      { change 0 with (inject_Z 0). rewrite <- Zle_Qle. lia. }
      assert (Hnp : 0 <= - (recent_avg * 0.5 * inject_Z days_ahead)).
      { assert (E : - (recent_avg * 0.5 * inject_Z days_ahead)
                    == recent_avg * 0.5 * - inject_Z days_ahead) by ring.
        rewrite E. apply Qmult_le_0_compat; lra. }
      pose proof (py_int_nonneg _ Hnp) as Hi.
      rewrite py_int_opp in Hi. lia.
Qed.

Lemma predicted_daily_at_least_half_witness :
  (200 # 1) * 0.5 <= predicted_daily 200 (-40) 30.
Proof.
  apply (predicted_daily_at_least_half 200 (-40) 30). discriminate.
Defined.

(** *** Monotonicity of the scores *)

Lemma clamp_monotone (x y : Q) :
  x <= y -> py_max 30 (py_min 95 x) <= py_max 30 (py_min 95 y).
Proof.
  intros H. rewrite !py_max_Qmax, !py_min_Qmin.
  apply Q.max_le_compat_l, Q.min_le_compat_l. exact H.
Qed.

Lemma base_confidence_monotone (n n' : Z) :
  (n <= n')%Z ->
  (if (30 <=? n)%Z then 85
   else if (14 <=? n)%Z then 70 else if (7 <=? n)%Z then 50 else 30 : Q)
  <= (if (30 <=? n')%Z then 85
      else if (14 <=? n')%Z then 70 else if (7 <=? n')%Z then 50 else 30 : Q).
Proof.
  intros H.
  destruct (Z.leb_spec 30 n), (Z.leb_spec 14 n), (Z.leb_spec 7 n),
    (Z.leb_spec 30 n'), (Z.leb_spec 14 n'), (Z.leb_spec 7 n');
    try lia; discriminate.
Qed.

Lemma base_confidence_positive (n : Z) :
  0 <= (if (30 <=? n)%Z then 85
        else if (14 <=? n)%Z then 70 else if (7 <=? n)%Z then 50 else 30 : Q).
Proof.
  destruct (30 <=? n)%Z, (14 <=? n)%Z, (7 <=? n)%Z; discriminate.
Qed.

Lemma variation_factor_range (cv : Q) :
  0.5 < cv ->
  0 <= 1 - py_min 0.3 ((cv - 0.5) * 0.5)
  /\ 1 - py_min 0.3 ((cv - 0.5) * 0.5) <= 1.
Proof.
  intros H. rewrite py_min_Qmin. split.
  - pose proof (Q.le_min_l 0.3 ((cv - 0.5) * 0.5)). lra.
  - assert (0 <= Qmin 0.3 ((cv - 0.5) * 0.5)); [|lra].
    apply Q.min_glb; lra.
Qed.

(** X13: the borough confidence does not decrease when the number of
    data points grows, and does not increase when the standard deviation
    grows (variance and mean otherwise fixed). *)
Theorem confidence_monotone (pow_half : Q -> Q) (n n' : Z) (v v' m : Q) :
  ((n <= n')%Z ->
   confidence pow_half n v m <= confidence pow_half n' v m)
  /\ (pow_half v <= pow_half v' ->
      confidence pow_half n v' m <= confidence pow_half n v m).
Proof.
  split.
  - intros Hn. unfold confidence. cbv zeta.
    pose proof (base_confidence_monotone n n' Hn) as Hbase.
    set (base := (if (30 <=? n)%Z then 85 else _) : Q) in *.
    set (base' := (if (30 <=? n')%Z then 85 else _) : Q) in *.
    apply clamp_monotone.
    destruct (Qltb 0 (pow_half v) && Qltb 0 m); [|exact Hbase].
    case_Qltb 0.5 (pow_half v / m); [|exact Hbase].
    apply Qmult_le_compat_r; [exact Hbase|].
    apply variation_factor_range. exact Hcmp.
  - intros Hsd. unfold confidence. cbv zeta.
    pose proof (base_confidence_positive n) as Hbase.
    set (base := (if (30 <=? n)%Z then 85 else _) : Q) in *.
    set (sd := pow_half v) in *. set (sd' := pow_half v') in *.
    apply clamp_monotone.
    case_Qltb 0 m; [|rewrite !andb_false_r; lra].
    rewrite !andb_true_r.
    assert (Hcv : sd / m <= sd' / m).
    { unfold Qdiv. apply Qmult_le_compat_r; [exact Hsd|].
      apply Qlt_le_weak, Qinv_lt_0_compat. exact Hcmp. }
    assert (Hshrink : forall cv, 0.5 < cv ->
                base * (1 - py_min 0.3 ((cv - 0.5) * 0.5)) <= base).
    { intros cv Hc. destruct (variation_factor_range cv Hc) as [_ Hle].
      assert (E : base == base * 1) by ring. rewrite E at 2.
      rewrite (Qmult_comm base), (Qmult_comm base 1).
      apply Qmult_le_compat_r; assumption. }
    destruct (Qltb 0 sd) eqn:Hsd0; [apply Qltb_lt in Hsd0 | apply Qltb_ge in Hsd0].
    + assert (H0' : Qltb 0 sd' = true) by (apply Qltb_lt; lra).
      rewrite H0'.
      destruct (Qltb 0.5 (sd / m)) eqn:Hcv0;
        [apply Qltb_lt in Hcv0 | apply Qltb_ge in Hcv0].
      * assert (H1' : Qltb 0.5 (sd' / m) = true) by (apply Qltb_lt; lra).
        rewrite H1'.
        rewrite !(Qmult_comm base).
        apply Qmult_le_compat_r; [|exact Hbase].
        rewrite !py_min_Qmin.
        assert (Qmin 0.3 ((sd / m - 0.5) * 0.5)
                <= Qmin 0.3 ((sd' / m - 0.5) * 0.5)); [|lra].
        apply Q.min_le_compat_l. lra.
      * destruct (Qltb 0.5 (sd' / m)) eqn:Hcv1; [|lra].
        apply Hshrink. apply Qltb_lt. exact Hcv1.
    + destruct (Qltb 0 sd'); [|lra].
      destruct (Qltb 0.5 (sd' / m)) eqn:Hcv1; [|lra].
      apply Hshrink. apply Qltb_lt. exact Hcv1.
Qed.

Lemma confidence_monotone_witness :
  confidence sqrt_milli 10 4 10 <= confidence sqrt_milli 40 4 10
  /\ confidence sqrt_milli 40 100 10 <= confidence sqrt_milli 40 64 10.
Proof.
  split.
  - apply (confidence_monotone sqrt_milli 10 40 4 4 10). lia.
  - apply (confidence_monotone sqrt_milli 40 40 64 100 10).
    vm_compute. discriminate.
Defined.

(** X14: the overflow risk score does not decrease with more overflow
    complaints and does not increase with more recent collections. *)
Theorem risk_score_monotone
    (overflow_count overflow_count' recent_collections recent_collections' : Z) :
  (overflow_count <= overflow_count')%Z ->
  (recent_collections' <= recent_collections)%Z ->
  (risk_score overflow_count recent_collections
   <= risk_score overflow_count' recent_collections')%Z.
Proof.
  intros Ho Hc. rewrite !risk_score_formula. lia.
Qed.

Lemma risk_score_monotone_witness :
  (risk_score 2 8 <= risk_score 5 3)%Z.
Proof.
  apply risk_score_monotone; lia.
Defined.

(** *** Rounding *)

Lemma round_half_even_monotone (x y : Q) :
  x <= y -> (round_half_even x <= round_half_even y)%Z.
Proof.
  intros H.
  pose proof (round_half_even_floor x) as [_ Hx].
  pose proof (round_half_even_floor y) as [Hy _].
  pose proof (Qfloor_resp_le _ _ H) as Hf.
  destruct (Z.eq_dec (Qfloor x) (Qfloor y)) as [E | Hne]; [|lia].
  clear Hx Hy Hf. unfold round_half_even. rewrite E.
  destruct (Qcompare_spec (x - inject_Z (Qfloor y)) (1 # 2)) as [Ex | Ex | Ex];
    destruct (Qcompare_spec (y - inject_Z (Qfloor y)) (1 # 2)) as [Ey | Ey | Ey];
    try lia; try lra;
    destruct (Z.even (Qfloor y)); lia.
Qed.

Lemma py_round_monotone (x y : Q) (ndigits : nat) :
  x <= y -> py_round x ndigits <= py_round y ndigits.
Proof.
  intros H. unfold py_round.
  set (scale := inject_Z (10 ^ Z.of_nat ndigits)).
  assert (Hs : 0 < scale).
  { unfold scale. change 0 with (inject_Z 0). rewrite <- Zlt_Qlt.
    apply Z.pow_pos_nonneg; lia. }
  unfold Qdiv. apply Qmult_le_compat_r.
  - rewrite <- Zle_Qle. apply round_half_even_monotone.
    apply Qmult_le_compat_r; [exact H | lra].
  - apply Qlt_le_weak, Qinv_lt_0_compat, Hs.
Qed.

(** *** Hotspots *)

Lemma py_int_monotone_nonneg (x y : Q) :
  0 <= x -> x <= y -> (py_int x <= py_int y)%Z.
Proof.
  intros Hx Hxy.
  rewrite (py_int_floor _ Hx), (py_int_floor _ (Qle_trans _ _ _ Hx Hxy)).
  apply Qfloor_resp_le. exact Hxy.
Qed.

Lemma py_int_inject_Z (z : Z) : py_int (inject_Z z) = z.
Proof.
  unfold py_int. simpl. apply Z.quot_1_r.
Qed.

Lemma hotspot_seasonal_factor_at_least_one (current_month : Z) :
  1 <= hotspot_seasonal_factor current_month.
Proof.
  unfold hotspot_seasonal_factor.
  destruct (memz current_month [12; 1; 2]%Z); [discriminate|].
  destruct (memz current_month [6; 7; 8]%Z); discriminate.
Qed.

(** X15: for a non-negative horizon and patterns with non-negative
    totals seen on 1 to 7 weekdays, every hotspot prediction is at least
    its unweighted base [int(total/90 * days_ahead)], which is not
    negative (the seasonal weighting never lowers it), and its
    confidence lies between 7.7 and 53.8: the cap at 100 is never
    reached. *)
Theorem hotspot_prediction_bounds (current_date : datetime) (days_ahead : Z)
    (historical_patterns : list HotspotPattern) (r : HotspotPrediction) :
  (0 <= days_ahead)%Z ->
  (forall pattern, In pattern historical_patterns ->
     (0 <= hp_total_requests pattern)%Z
     /\ (1 <= hp_days_active pattern <= 7)%Z) ->
  In r (predict_hotspots current_date days_ahead historical_patterns) ->
  exists pattern,
    In pattern historical_patterns
    /\ (0 <= py_int (true_div (hp_total_requests pattern) 90
                     * inject_Z days_ahead)
        <= hs_predicted_requests r)%Z
    /\ 7.7 <= hs_confidence r /\ hs_confidence r <= 53.8.
Proof.
  intros Hd Hall Hr. apply In_predict_hotspots in Hr.
  destruct Hr as (pattern & Hin & ->). exists pattern.
  destruct (Hall pattern Hin) as [Htotal [Hlo Hhi]].
  split; [exact Hin|].
  cbn [hs_predicted_requests hs_confidence apply_seasonal_weighting
       hotspot_of_pattern].
  assert (Hbase : 0 <= true_div (hp_total_requests pattern) 90
                       * inject_Z days_ahead).
  { apply Qmult_le_0_compat.
    - unfold true_div. apply Qle_shift_div_l; [reflexivity|].
      rewrite Qmult_0_l. change 0 with (inject_Z 0). rewrite <- Zle_Qle.
      exact Htotal.
    - change 0 with (inject_Z 0). rewrite <- Zle_Qle. exact Hd. }
  pose proof (py_int_nonneg _ Hbase) as Hnn.
  set (base := py_int (true_div (hp_total_requests pattern) 90
                       * inject_Z days_ahead)) in *.
  split; [split; [exact Hnn|]|].
  - rewrite <- (py_int_inject_Z base) at 1.
    assert (HbQ : 0 <= inject_Z base).
    { change 0 with (inject_Z 0). rewrite <- Zle_Qle. exact Hnn. }
    apply py_int_monotone_nonneg; [exact HbQ|].
    pose proof (hotspot_seasonal_factor_at_least_one (month current_date)).
    assert (E : inject_Z base == inject_Z base * 1) by ring.
    rewrite E at 1. rewrite !(Qmult_comm (inject_Z base)).
    apply Qmult_le_compat_r; assumption.
  - assert (Hd1 : 1 <= inject_Z (hp_days_active pattern)).
    { change 1 with (inject_Z 1). rewrite <- Zle_Qle. exact Hlo. }
    assert (Hd7 : inject_Z (hp_days_active pattern) <= 7).
    { change 7 with (inject_Z 7). rewrite <- Zle_Qle. exact Hhi. }
    assert (E : true_div (hp_days_active pattern) 13 * 100
                == inject_Z (hp_days_active pattern) * (100 # 13))
      by (unfold true_div; field).
    split.
    + apply (Qle_trans _ (py_round (100 # 13) 1));
        [vm_compute; discriminate|].
      apply py_round_monotone. rewrite py_min_Qmin.
      apply Q.min_glb; [discriminate | rewrite E; lra].
    + apply (Qle_trans _ (py_round (700 # 13) 1));
        [|vm_compute; discriminate].
      apply py_round_monotone. rewrite py_min_Qmin.
      apply (Qle_trans _ _ _ (Q.le_min_r _ _)). rewrite E. lra.
Qed.

Lemma hotspot_prediction_bounds_witness :
  exists pattern,
    In pattern [mk_pattern 40.7 (-74) 45 2 5]
    /\ (0 <= py_int (true_div (hp_total_requests pattern) 90 * inject_Z 7)
        <= hs_predicted_requests
             (apply_seasonal_weighting 7
                (hotspot_of_pattern 7 (mk_pattern 40.7 (-74) 45 2 5))))%Z
    /\ 7.7 <= hs_confidence
                (apply_seasonal_weighting 7
                   (hotspot_of_pattern 7 (mk_pattern 40.7 (-74) 45 2 5)))
    /\ hs_confidence
         (apply_seasonal_weighting 7
            (hotspot_of_pattern 7 (mk_pattern 40.7 (-74) 45 2 5))) <= 53.8.
Proof.
  apply (hotspot_prediction_bounds (mk_datetime 2025 7 4) 7
           [mk_pattern 40.7 (-74) 45 2 5]).
  - lia.
  - intros pattern [<- | []]. simpl. lia.
  - left. reflexivity.
Defined.

(** *** Seasonal factors and complaint types *)




(** *** Tonnage forecast *)

Lemma samples_append_to (k : string) (v : Q) (d : list (string * list Q)) :
  fold_right Z.add 0%Z (map (fun kv => len (snd kv)) (append_to k v d))
  = (fold_right Z.add 0%Z (map (fun kv => len (snd kv)) d) + 1)%Z.
Proof.
  induction d as [|[k' vs] rest IH]; [reflexivity|].
  cbn [append_to]. destruct (String.eqb k k').
  - cbn [map fold_right snd]. unfold len. rewrite length_app.
    cbn [List.length]. lia.
  - cbn [map fold_right snd]. rewrite IH. lia.
Qed.

Lemma group_by_waste_type_accounts (collections : list CollectionDoc) :
  NoDup (map fst (group_by_waste_type collections))
  /\ fold_right Z.add 0%Z
       (map (fun kv => len (snd kv)) (group_by_waste_type collections))
     = len collections.
Proof.
  unfold group_by_waste_type.
  match goal with
  | |- context [fold_left ?f _ _] => set (step := f)
  end.
  assert (Hinv : forall colls d,
             NoDup (map fst d) ->
             NoDup (map fst (fold_left step colls d))
             /\ fold_right Z.add 0%Z
                  (map (fun kv => len (snd kv)) (fold_left step colls d))
                = (fold_right Z.add 0%Z (map (fun kv => len (snd kv)) d)
                   + len colls)%Z).
  { induction colls as [|coll rest IH]; intros d Hd.
    - simpl. split; [exact Hd | unfold len; simpl; lia].
    - cbn [fold_left].
      destruct (IH (step d coll)) as [H1 H2].
      + unfold step. apply keys_append_to. exact Hd.
      + split; [exact H1|]. rewrite H2. unfold step.
        rewrite samples_append_to. unfold len. cbn [List.length]. lia. }
  destruct (Hinv collections [] (NoDup_nil _)) as [H1 H2].
  split; [exact H1 | rewrite H2; simpl; lia].
Qed.

Lemma tonnage_loop_predictions (days_ahead : Z)
    (daily_totals : list (string * list Q)) :
  Forall (fun kv => snd kv <> []) daily_totals ->
  map fst (fst (fst (tonnage_loop days_ahead daily_totals)))
  = map fst daily_totals
  /\ map (fun p => historical_samples (snd p))
         (fst (fst (tonnage_loop days_ahead daily_totals)))
     = map (fun kv => len (snd kv)) daily_totals.
Proof.
  unfold tonnage_loop.
  match goal with
  | |- context [fold_left ?f _ _] => set (step := f)
  end.
  assert (Hacc : forall d acc,
             Forall (fun kv : string * list Q => snd kv <> []) d ->
             map fst (fst (fst (fold_left step d acc)))
             = (map fst (fst (fst acc)) ++ map fst d)%list
             /\ map (fun p => historical_samples (snd p))
                    (fst (fst (fold_left step d acc)))
                = (map (fun p => historical_samples (snd p)) (fst (fst acc))
                   ++ map (fun kv => len (snd kv)) d)%list).
  { induction d as [|[waste_type tonnages] rest IH]; intros [[p t] s] Hd.
    - cbn. rewrite !app_nil_r. split; reflexivity.
    - inversion Hd as [|? ? Hne Hrest]; subst. cbn [snd] in Hne.
      destruct tonnages as [|x xs]; [congruence|].
      cbn [fold_left]. unfold step at 2 4.
      destruct (IH (p ++ [(waste_type,
                     {| predicted_tonnage :=
                          py_round (sumq (x :: xs) / inject_Z (len (x :: xs))
                                    * inject_Z days_ahead) 2;
                        avg_daily_tonnage :=
                          py_round (sumq (x :: xs) / inject_Z (len (x :: xs))) 2;
                        historical_samples := len (x :: xs) |})],
                   t + sumq (x :: xs) / inject_Z (len (x :: xs))
                       * inject_Z days_ahead,
                   (s + len (x :: xs))%Z)%list Hrest) as [H1 H2].
      split.
      + rewrite H1. cbn [fst snd]. rewrite map_app, <- app_assoc. reflexivity.
      + rewrite H2. cbn [fst snd]. rewrite map_app, <- app_assoc. reflexivity. }
  intros Hd. destruct (Hacc daily_totals ([], 0, 0%Z) Hd) as [H1 H2].
  split; assumption.
Qed.

Lemma tf_predictions_eq (zone_id : string) (days_ahead : Z)
    (collections : list CollectionDoc) (forecast : TonnageForecast) :
  predict_tonnage_forecast zone_id days_ahead collections = TonnageOk forecast ->
  tf_predictions forecast
  = fst (fst (tonnage_loop days_ahead (group_by_waste_type collections))).
Proof.
  unfold predict_tonnage_forecast.
  destruct collections as [|coll rest]; [discriminate|].
  destruct (tonnage_loop days_ahead (group_by_waste_type (coll :: rest)))
    as [[predictions total_predicted] total_samples].
  intros E. injection E as <-. reflexivity.
Qed.

(** X17: the tonnage forecast is the insufficient-data record exactly
    when there are no collections; otherwise the waste types of its
    predictions are distinct, their historical samples add up to the
    number of collections, and the confidence is
    [min(100, collections / (60 * waste types) * 100)]. *)
Theorem tonnage_forecast_accounts (zone_id : string) (days_ahead : Z)
    (collections : list CollectionDoc) :
  (collections = [] <->
   exists error data_source,
     predict_tonnage_forecast zone_id days_ahead collections
     = TonnageError zone_id error data_source)
  /\ forall forecast,
       predict_tonnage_forecast zone_id days_ahead collections
       = TonnageOk forecast ->
       NoDup (map fst (tf_predictions forecast))
       /\ fold_right Z.add 0%Z
            (map (fun p => historical_samples (snd p))
                 (tf_predictions forecast))
          = len collections
       /\ tf_confidence forecast
          == Qmin 100
               (true_div (len collections)
                         (60 * len (tf_predictions forecast)) * 100).
Proof.
  split.
  - split.
    + intros ->. eexists. eexists. reflexivity.
    + intros (error & data_source & H).
      destruct collections as [|coll rest]; [reflexivity|].
      unfold predict_tonnage_forecast in H.
      destruct (tonnage_loop days_ahead (group_by_waste_type (coll :: rest)))
        as [[p t] s]. discriminate H.
  - intros forecast E.
    destruct (tf_confidence_eq _ _ _ _ E) as [Hne Hconf].
    pose proof (tf_predictions_eq _ _ _ _ E) as Hpred.
    destruct (group_by_waste_type_values collections Hne) as [_ Hall].
    destruct (group_by_waste_type_accounts collections) as [Hnodup Hsum].
    destruct (tonnage_loop_predictions days_ahead _ Hall) as [Hkeys Hsamples].
    rewrite Hpred. split; [rewrite Hkeys; exact Hnodup|].
    split; [rewrite Hsamples; exact Hsum|].
    rewrite Hconf, py_min_Qmin, tonnage_loop_samples, Hsum.
    assert (Hlen : len (fst (fst (tonnage_loop days_ahead
                                    (group_by_waste_type collections))))
                   = len (group_by_waste_type collections)).
    { unfold len. f_equal.
      rewrite <- (length_map fst), Hkeys, length_map. reflexivity. }
    rewrite Hlen. reflexivity.
Qed.

Lemma tonnage_forecast_accounts_witness :
  match predict_tonnage_forecast "BKN-01" 7
          [mk_collection (Some "recycling") (Some 1.5);
           mk_collection None (Some 2.5);
           mk_collection (Some "recycling") (Some 3.5)] with
  | TonnageOk forecast =>
      fold_right Z.add 0%Z
        (map (fun p => historical_samples (snd p)) (tf_predictions forecast))
      = 3%Z
  | TonnageError _ _ _ => False
  end.
Proof.
  destruct (tonnage_forecast_accounts "BKN-01" 7
              [mk_collection (Some "recycling") (Some 1.5);
               mk_collection None (Some 2.5);
               mk_collection (Some "recycling") (Some 3.5)]) as [_ H].
  destruct (predict_tonnage_forecast "BKN-01" 7
              [mk_collection (Some "recycling") (Some 1.5);
               mk_collection None (Some 2.5);
               mk_collection (Some "recycling") (Some 3.5)])
    as [zone_id error data_source | forecast] eqn:E.
  - vm_compute in E. discriminate E.
  - destruct (H forecast eq_refl) as (_ & Hsum & _). exact Hsum.
Defined.

(** *** Grouping by borough *)

Lemma organize_by_borough_values (historical_data : list HistoricalPoint) :
  Forall (fun kv => snd kv <> []) (organize_by_borough historical_data).
Proof.
  unfold organize_by_borough.
  match goal with
  | |- context [fold_left ?f _ _] => set (step := f)
  end.
  assert (Hinv : forall rows d,
             Forall (fun kv : string * list Z => snd kv <> []) d ->
             Forall (fun kv => snd kv <> []) (fold_left step rows d)).
  { induction rows as [|row rest IH]; intros d Hd; [exact Hd|].
    cbn [fold_left]. apply IH. unfold step.
    destruct (hd_date row); [apply append_to_values|]; exact Hd. }
  apply Hinv. constructor.
Qed.

(** X18: grouping by borough keeps every observation: the boroughs of
    the grouped data are distinct, each holds exactly the counts of its
    rows with a readable date, in order, and a borough is present
    exactly when it has such a row. *)
Theorem organize_by_borough_round_trip
    (historical_data : list HistoricalPoint) :
  NoDup (map fst (organize_by_borough historical_data))
  /\ (forall borough,
        get_list borough (organize_by_borough historical_data)
        = observed_counts borough historical_data)
  /\ (forall borough,
        In borough (map fst (organize_by_borough historical_data))
        <-> observed_counts borough historical_data <> []).
Proof.
  destruct (organize_fold historical_data [] (NoDup_nil _)) as [Hnodup Hget].
  fold (organize_by_borough historical_data) in Hnodup, Hget.
  split; [exact Hnodup | split; [exact Hget |]].
  intros borough. split.
  - intros Hin. apply in_map_iff in Hin. destruct Hin as ([b counts] & E & Hin).
    cbn [fst] in E. subst b.
    pose proof (organize_by_borough_values historical_data) as Hall.
    rewrite Forall_forall in Hall. specialize (Hall _ Hin). cbn [snd] in Hall.
    apply organize_by_borough_observed in Hin. congruence.
  - intros Hne. apply in_map_iff.
    exists (borough, observed_counts borough historical_data).
    split; [reflexivity | apply observed_in_organize; exact Hne].
Qed.

Lemma organize_by_borough_round_trip_witness :
  In "QUEENS"
     (map fst
        (organize_by_borough
           [mk_point "BRONX" (Some (mk_datetime 2025 1 13)) 4;
            mk_point "QUEENS" None 9;
            mk_point "QUEENS" (Some (mk_datetime 2025 1 14)) 7])).
Proof.
  destruct (organize_by_borough_round_trip
              [mk_point "BRONX" (Some (mk_datetime 2025 1 13)) 4;
               mk_point "QUEENS" None 9;
               mk_point "QUEENS" (Some (mk_datetime 2025 1 14)) 7])
    as (_ & _ & Hiff).
  apply Hiff. vm_compute. discriminate.
Defined.

(** *** Route optimization *)

Lemma py_round_nonneg (x : Q) (ndigits : nat) :
  0 <= x -> 0 <= py_round x ndigits.
Proof.
  intros H. unfold py_round.
  set (scale := inject_Z (10 ^ Z.of_nat ndigits)).
  assert (Hs : 0 < scale).
  { unfold scale. change 0 with (inject_Z 0). rewrite <- Zlt_Qlt.
    apply Z.pow_pos_nonneg; lia. }
  assert (Hx : inject_Z 0 <= x * scale).
  { apply Qmult_le_0_compat; lra. }
  apply Qfloor_resp_le in Hx. rewrite Qfloor_Z in Hx.
  pose proof (round_half_even_floor (x * scale)) as [Hlo _].
  apply Qle_shift_div_l; [exact Hs|]. rewrite Qmult_0_l.
  change 0 with (inject_Z 0). rewrite <- Zle_Qle. lia.
Qed.

Lemma total_nonneg (xs : list Q) :
  Forall (fun x => 0 <= x) xs -> 0 <= total xs.
Proof.
  induction 1 as [|x rest Hx _ IH]; simpl; [discriminate | lra].
Qed.

Lemma avg_route_time_nonneg (routes : list RouteDoc) :
  (forall route minutes,
      In route routes ->
      route_estimated_duration_minutes route = Some minutes -> 0 <= minutes) ->
  0 <= avg_route_time routes.
Proof.
  intros Hall. unfold avg_route_time. rewrite sumq_total.
  destruct routes as [|route rest]; [discriminate|].
  apply Qle_shift_div_l.
  - unfold len. change 0 with (inject_Z 0). rewrite <- Zlt_Qlt.
    cbn [List.length]. lia.
  - rewrite Qmult_0_l. apply total_nonneg.
    apply Forall_forall. intros x Hx. apply in_map_iff in Hx.
    destruct Hx as (r & <- & Hr).
    destruct (route_estimated_duration_minutes r) as [minutes|] eqn:E;
      [exact (Hall r minutes Hr E) | discriminate].
Qed.

(** X19: route optimization returns its no-data record exactly when
    there are no routes; otherwise, for non-negative durations, the
    reported values satisfy 0 <= time saved <= optimized time <= current
    average time and 0 <= fuel saved <= cost saved, and [based_on_routes]
    is the number of routes. *)
Theorem route_optimization_savings (zone_id : string)
    (routes : list RouteDoc) :
  (routes = [] <->
   exists error data_source,
     predict_route_optimization zone_id routes
     = RouteError zone_id error data_source)
  /\ forall optimization,
       predict_route_optimization zone_id routes = RouteOk optimization ->
       (forall route minutes,
           In route routes ->
           route_estimated_duration_minutes route = Some minutes ->
           0 <= minutes) ->
       0 <= ro_time_saved_minutes optimization
       /\ ro_time_saved_minutes optimization
          <= ro_optimized_time_minutes optimization
       /\ ro_optimized_time_minutes optimization
          <= ro_current_avg_time_minutes optimization
       /\ 0 <= ro_fuel_saved_gallons optimization
       /\ ro_fuel_saved_gallons optimization
          <= ro_cost_saved_per_day optimization
       /\ ro_based_on_routes optimization = len routes.
Proof.
  split.
  - split.
    + intros ->. eexists. eexists. reflexivity.
    + intros (error & data_source & H).
      destruct routes; [reflexivity | discriminate H].
  - intros optimization E Hall.
    pose proof (avg_route_time_nonneg routes Hall) as Havg.
    destruct routes as [|route rest]; [discriminate E|].
    unfold predict_route_optimization in E. injection E as <-.
    cbn [ro_time_saved_minutes ro_optimized_time_minutes
         ro_current_avg_time_minutes ro_fuel_saved_gallons
         ro_cost_saved_per_day ro_based_on_routes].
    set (avg_time := avg_route_time (route :: rest)) in *.
    assert (Hsaved : 0 <= avg_time - avg_time * 0.85) by lra.
    repeat split.
    + apply py_round_nonneg. exact Hsaved.
    + apply py_round_monotone. lra.
    + apply py_round_monotone. lra.
    + apply py_round_nonneg.
      assert (E : (avg_time - avg_time * 0.85) / 60 * 2.5
                  == (avg_time - avg_time * 0.85) * (1 # 24)) by field.
      rewrite E. lra.
    + apply py_round_monotone.
      assert (E1 : (avg_time - avg_time * 0.85) / 60 * 2.5
                   == (avg_time - avg_time * 0.85) * (1 # 24)) by field.
      assert (E2 : (avg_time - avg_time * 0.85) / 60 * 50
                   == (avg_time - avg_time * 0.85) * (5 # 6)) by field.
      rewrite E1, E2. lra.
Qed.

Lemma route_optimization_savings_witness :
  match predict_route_optimization "BKN-01"
          [mk_route (Some 200); mk_route None; mk_route (Some 310.5)] with
  | RouteOk optimization =>
      ro_optimized_time_minutes optimization
      <= ro_current_avg_time_minutes optimization
  | RouteError _ _ _ => False
  end.
Proof.
  destruct (route_optimization_savings "BKN-01"
              [mk_route (Some 200); mk_route None; mk_route (Some 310.5)])
    as [_ H].
  destruct (predict_route_optimization "BKN-01"
              [mk_route (Some 200); mk_route None; mk_route (Some 310.5)])
    as [zone_id error data_source | optimization] eqn:E.
  - vm_compute in E. discriminate E.
  - destruct (H optimization eq_refl) as (_ & _ & Hle & _).
    + intros route minutes [<- | [<- | [<- | []]]] Hm; inversion Hm;
        discriminate.
    + exact Hle.
Defined.

(** *** One entry per borough *)

Lemma borough_loop_boroughs (pow_half : Q -> Q) (current_date : datetime)
    (days_ahead : Z) (borough_data : list (string * list Z)) :
  exists kept,
    map bp_borough
        (borough_loop pow_half current_date days_ahead borough_data)
    = map fst (filter kept borough_data).
Proof.
  exists (fun kv => negb (unspecified_borough (fst kv))
                    && negb (len (snd kv) <? 3)%Z).
  unfold borough_loop.
  induction borough_data as [|[borough counts] rest IH]; [reflexivity|].
  cbn [flat_map filter fst snd]. rewrite map_app, IH.
  destruct (unspecified_borough borough); [reflexivity|].
  destruct (len counts <? 3)%Z; reflexivity.
Qed.

Lemma NoDup_map_filter {A B : Type} (f : A -> B) (kept : A -> bool)
    (xs : list A) :
  NoDup (map f xs) -> NoDup (map f (filter kept xs)).
Proof.
  induction xs as [|x rest IH]; intros H; [exact H|].
  cbn [map] in H. inversion H as [|? ? Hnot Hrest]; subst.
  cbn [filter]. destruct (kept x); [|apply IH; exact Hrest].
  cbn [map]. constructor; [|apply IH; exact Hrest].
  intros Hin. apply Hnot. apply in_map_iff in Hin.
  destruct Hin as (y & E & Hy). apply filter_In in Hy.
  apply in_map_iff. exists y. split; [exact E | apply Hy].
Qed.

(** X20: the borough forecast has at most one prediction per borough,
    and its count is at most the number of boroughs of the grouped data
    and at most the number of input rows. *)
Theorem borough_forecast_one_entry_per_borough (pow_half : Q -> Q)
    (current_date : datetime) (days_ahead : Z)
    (historical_data : list HistoricalPoint) :
  let forecast :=
    predict_borough_complaints pow_half current_date days_ahead
                               historical_data in
  NoDup (map bp_borough (bf_predictions forecast))
  /\ (bf_count forecast <= len (organize_by_borough historical_data))%Z
  /\ (bf_count forecast <= len historical_data)%Z.
Proof.
  intros forecast. subst forecast.
  unfold predict_borough_complaints. cbv zeta.
  cbn [bf_predictions bf_count].
  set (loop := borough_loop pow_half current_date days_ahead
                            (organize_by_borough historical_data)).
  destruct (borough_loop_boroughs pow_half current_date days_ahead
              (organize_by_borough historical_data)) as [kept Hkept].
  fold loop in Hkept.
  destruct (organize_fold historical_data [] (NoDup_nil _)) as [Hnodup _].
  fold (organize_by_borough historical_data) in Hnodup.
  assert (Hperm : Permutation (sort_desc bp_predicted_complaints loop) loop)
    by apply sort_desc_perm.
  assert (Hlen : (List.length (sort_desc bp_predicted_complaints loop)
                  <= List.length (organize_by_borough historical_data))%nat).
  { rewrite (Permutation_length Hperm), <- (length_map bp_borough), Hkept,
      length_map. apply filter_length_le. }
  split; [|split].
  - apply (Permutation_NoDup
             (Permutation_map bp_borough (Permutation_sym Hperm))).
    rewrite Hkept. apply NoDup_map_filter. exact Hnodup.
  - unfold len. lia.
  - assert (Hgroups : (List.length (organize_by_borough historical_data)
                       <= List.length historical_data)%nat).
    { unfold organize_by_borough.
      match goal with
      | |- context [fold_left ?f _ _] => set (step := f)
      end.
      assert (Hinv : forall rows d,
                 (List.length (fold_left step rows d)
                  <= List.length d + List.length rows)%nat).
      { induction rows as [|row rest IH]; intros d; [simpl; lia|].
        cbn [fold_left List.length]. specialize (IH (step d row)).
        assert (Hstep : (List.length (step d row) <= S (List.length d))%nat).
        { unfold step. destruct (hd_date row); [|lia].
          generalize (hd_borough row) (hd_count row). intros k v.
          clear. induction d as [|[k' vs] tail IHd]; simpl; [lia|].
          destruct (String.eqb k k'); simpl; lia. }
        lia. }
      specialize (Hinv historical_data []). simpl in Hinv. exact Hinv. }
    unfold len. lia.
Qed.

End ForecastFacts.
